(** * Server-Architecture-Notes: the in-memory record stores of the snapshots

    The repository is a series of FastAPI teaching snapshots.  Three of them
    keep a module-level dictionary as a fake database and expose handlers
    that create, read, update and delete records in it:

    - [snapshots/06_main.py]: [items_db], [create_item], [read_item];
    - [snapshots/10_main.py]: [fake_users_db], [fake_items_db],
      [create_user], [read_user], [read_items], [read_single_item];
    - [snapshots/12_main.py]: [items_db], [item_next_id], [create_item],
      [delete_item], [update_item].

    Three more snapshots have handlers with logic of their own:
    [snapshots/04_main.py] ([read_items_with_query], a slice of a list),
    [snapshots/05_main.py] ([create_item], [update_item_complex]) and
    [snapshots/07_main.py] (the API key dependencies and the routes behind
    them).

    Each handler is embedded as a function from the module-level state to the
    value it returns (or the exception it raises) and the new state.  The
    route decorator ([status_code], [response_model]) is applied on top of
    the handler to obtain the response seen by the client. *)

From Stdlib Require Import ZArith List Ascii String Lia Sorted.
From Stdlib Require Import Floats.SpecFloat.
From stdpp Require Import base gmap list strings fin_maps sorting.

Local Open Scope Z_scope.

(** ** Python values *)

(** A Python [float] is an IEEE 754 binary64; [spec_float] lists its shapes
    (signed zero, signed infinity, NaN, finite). *)
Abbreviation float := spec_float.

(** [m * 2^e] as a positive binary64 with a 53-bit mantissa (for the float
    literals of the sources, all of which are exact). *)
Definition binary64 (m : positive) (e : Z) : float :=
  let d := 53 - Z.pos (digits2_pos m) in
  S754_finite false (shift_pos (Z.to_pos d) m) (e - d).

(** A Python float object.  The program can tell two float objects of the
    same value apart in one case only: [==] between dicts tests identity
    before equality, and a NaN equals nothing, so two NaN objects compare
    equal there exactly when they are one object.  A float object is
    therefore its value, with an identity for NaN:
    - [Num v], for [v] not NaN, is a float of value [v];
    - [Num S754_nan] is the NaN object of the [json] module, to which the
      token [NaN] of every request body is parsed (one shared object);
    - [NaNObj n] is any other NaN object, [n] being its identity (a NaN
      made while a body is validated, for example from the string "nan"). *)
Inductive pyfloat :=
  | Num (v : float)
  | NaNObj (obj : N).

Coercion Num : spec_float >-> pyfloat.

Definition is_nan (f : pyfloat) : Prop :=
  match f with
  | Num S754_nan | NaNObj _ => True
  | _ => False
  end.

(** Neither NaN nor an infinity. *)
Definition is_finite (f : pyfloat) : bool :=
  match f with
  | Num (S754_zero _) | Num (S754_finite _ _ _) => true
  | _ => false
  end.

(** [0.0] and [-0.0]. *)
Definition is_zero (f : pyfloat) : Prop :=
  match f with Num (S754_zero _) => True | _ => False end.

(** Python's [a == b] on floats, the IEEE comparison: NaN differs from
    everything, itself included, and [0.0 == -0.0]. *)
Definition float_eqb (a b : pyfloat) : bool :=
  match a, b with
  | Num v, Num w => SFeqb v w
  | _, _ => false
  end.

(** [a is b] on NaN objects.  (For other floats identity implies [==], so
    it never changes the outcome of "identical or equal".) *)
Definition float_is (a b : pyfloat) : bool :=
  match a, b with
  | Num S754_nan, Num S754_nan => true
  | NaNObj i, NaNObj j => (i =? j)%N
  | _, _ => false
  end.

(** The values that occur in the dictionaries of the snapshots. *)
Inductive value :=
  | VNone
  | VInt (z : Z)
  | VFloat (f : pyfloat)
  | VStr (s : string)
  | VStrs (l : list string).

(** Python's [int == float]: exact numeric comparison. *)
Definition int_float_eqb (z : Z) (f : float) : bool :=
  match f with
  | S754_zero _ => z =? 0
  | S754_finite s m e =>
      let sm := if s then Z.neg m else Z.pos m in
      if 0 <=? e then z =? sm * 2 ^ e else z * 2 ^ (- e) =? sm
  | S754_infinity _ | S754_nan => false
  end.

(** Python's [==] on values. *)
Definition value_eqb (v w : value) : bool :=
  match v, w with
  | VNone, VNone => true
  | VInt a, VInt b => a =? b
  | VFloat a, VFloat b => float_eqb a b
  | VInt a, VFloat (Num b) => int_float_eqb a b
  | VFloat (Num a), VInt b => int_float_eqb b a
  | VStr a, VStr b => String.eqb a b
  | VStrs a, VStrs b => bool_decide (a = b)
  | _, _ => false
  end.

(** [v is w], where it can change a comparison: on NaN objects.  (For
    every other value identity implies [==].) *)
Definition value_is (v w : value) : bool :=
  match v, w with
  | VFloat a, VFloat b => float_is a b
  | _, _ => false
  end.

(** A Python [dict] with string keys, in insertion order, keys unique. *)
Definition dict := list (string * value).

Fixpoint dict_get (k : string) (d : dict) : option value :=
  match d with
  | [] => None
  | (k', v) :: d' => if String.eqb k k' then Some v else dict_get k d'
  end.

(** [d[k] = v]: overwrite in place, or append a new key. *)
Fixpoint dict_set (k : string) (v : value) (d : dict) : dict :=
  match d with
  | [] => [(k, v)]
  | (k', v') :: d' =>
      if String.eqb k k' then (k, v) :: d' else (k', v') :: dict_set k v d'
  end.

(** The dict display [{**a, **b}]: the entries of [a], then those of [b],
    a later key overwriting an earlier one. *)
Definition dict_unpack (a b : dict) : dict :=
  fold_left (fun acc kv => dict_set kv.1 kv.2 acc) b a.

Definition dict_keys (d : dict) : list string := d.*1.

(** Python's [a == b] on dicts: same number of keys, and every key of [a]
    is a key of [b] whose value is the same object or an equal one
    (CPython tests the two values for identity before it calls [==]). *)
Definition dict_eqb (a b : dict) : bool :=
  (length a =? length b)%nat &&
  forallb (fun kv => match dict_get kv.1 b with
                     | Some w => value_is w kv.2 || value_eqb w kv.2
                     | None => false
                     end) a.

(** ** The boundary: exceptions, responses, route decorators *)

(** [fastapi.status] *)
Definition HTTP_200_OK : Z := 200.
Definition HTTP_201_CREATED : Z := 201.
Definition HTTP_204_NO_CONTENT : Z := 204.
Definition HTTP_304_NOT_MODIFIED : Z := 304.
Definition HTTP_404_NOT_FOUND : Z := 404.

(** [HTTPException(status_code=..., detail=...)] *)
Record HTTPException := { exc_status_code : Z; detail : string }.

Inductive content :=
  | NoBody
  | JSON (d : dict)
  | JSONList (l : list dict)
  | PlainText (s : string).

Record Response := { status_code : Z; body : content }.

(** What a handler hands back to the framework: a dict (or a model object,
    seen through its fields), a list of them, [None], or a ready-made
    [Response] object. *)
Inductive returned :=
  | RetDict (d : dict)
  | RetList (l : list dict)
  | RetNone
  | RetResponse (r : Response).

Inductive outcome :=
  | Return (r : returned)
  | Raise (e : HTTPException).

(** Modelled from the spec: the projection rule of the boundary layer (the
    framework's [response_model] filtering, which is not part of the
    repository's sources): "strip every field not in the declared
    PublicProjection field set for that record type before transmission". *)
Definition project (fields : list string) (d : dict) : dict :=
  filter (fun kv => bool_decide (kv.1 ∈ fields)) d.

(** The framework's two ways of encoding a returned value differ on the
    floats that JSON cannot write (NaN and the infinities).  Without a
    response model the value goes to the JSON encoder as it is, and the
    encoder refuses such a float: the request ends in a 500. *)
Definition json_compliant (d : dict) : bool :=
  forallb (fun kv => match kv.2 with VFloat f => is_finite f | _ => true end) d.

Definition internal_server_error : Response :=
  {| status_code := 500; body := PlainText "Internal Server Error" |}.

(** With a response model the value is serialized through the model, which
    writes such a float as [null]. *)
Definition null_non_finite (v : value) : value :=
  match v with
  | VFloat f => if is_finite f then v else VNone
  | _ => v
  end.

Definition serialize (fields : list string) (d : dict) : dict :=
  prod_map id null_non_finite <$> project fields d.

(** The route decorator [@app.verb(path, status_code=..., response_model=...)]
    around a handler: a raised [HTTPException] becomes the error response
    with its own status and [{"detail": ...}]; a returned [Response] object
    is sent as it is (the response model does not apply to it); any other
    value is encoded, through the response model when there is one, and
    sent with the route's status code. *)
Definition route (status : Z) (response_model : option (list string))
    (o : outcome) : Response :=
  match o with
  | Raise e =>
      {| status_code := exc_status_code e;
         body := JSON [("detail"%string, VStr (detail e))] |}
  | Return (RetResponse r) => r
  | Return RetNone => {| status_code := status; body := NoBody |}
  | Return (RetDict d) =>
      match response_model with
      | Some fields => {| status_code := status; body := JSON (serialize fields d) |}
      | None =>
          if json_compliant d then {| status_code := status; body := JSON d |}
          else internal_server_error
      end
  | Return (RetList l) =>
      match response_model with
      | Some fields =>
          {| status_code := status; body := JSONList (map (serialize fields) l) |}
      | None =>
          if forallb json_compliant l then {| status_code := status; body := JSONList l |}
          else internal_server_error
      end
  end.

(** The keys of every JSON object of a response body. *)
Definition body_keys (c : content) : list string :=
  match c with
  | NoBody => []
  | JSON d => dict_keys d
  | JSONList l => concat (map dict_keys l)
  | PlainText _ => []
  end.

(** The NotFound failure: an [HTTPException] with status 404. *)
Definition not_found (o : outcome) : Prop :=
  exists d, o = Raise {| exc_status_code := HTTP_404_NOT_FOUND; detail := d |}.

(** Python's [list(d.values())] and [len(d)] on a dictionary keyed by
    integers.  A Python dict lists its entries in insertion order; the
    stores of the snapshots are filled in ascending key order (seed literals
    first, then ever larger identifiers; an overwrite keeps the position),
    so the entries are listed by ascending key. *)
Definition key_le {A} (a b : Z * A) : Prop := a.1 <= b.1.

#[global] Instance key_le_dec {A} (a b : Z * A) : Decision (key_le a b) :=
  decide (a.1 <= b.1).

Definition values {A} (d : gmap Z A) : list A :=
  (merge_sort key_le (map_to_list d)).*2.
Definition len {A} (d : gmap Z A) : Z := Z.of_nat (size d).

(** [d[k]] read back right after [d[k] = ...] (no [KeyError] there). *)
Definition getitem (d : gmap Z dict) (k : Z) : dict := default [] (d !! k).

(** ** Snapshot 12: status codes, with the identifier counter *)

Module Snapshot12.

(** [class Item(BaseModel)]: [name: str], [price: float] (any float
    object: the field has no constraint). *)
Record Item := { name : string; price : pyfloat }.

Definition Item_fields : list string := ["name"; "price"]%string.

Definition model_dump (item : Item) : dict :=
  [("name"%string, VStr (name item)); ("price"%string, VFloat (price item))].

(** The module-level state: [items_db] and [item_next_id]. *)
Record state := { items_db : gmap Z dict; item_next_id : Z }.

Definition initial : state :=
  {| items_db :=
       <[1 := [("name"%string, VStr "Laptop"); ("price"%string, VFloat (binary64 1200 0))]]>
       (<[2 := [("name"%string, VStr "Keyboard"); ("price"%string, VFloat (binary64 75 0))]]> ∅);
     item_next_id := 3 |}.

(** [create_item]: store the dump under the counter, build
    [created_item_info], bump the counter, return the info. *)
Definition create_item (item : Item) (s : state) : outcome * state :=
  let db := <[item_next_id s := model_dump item]> (items_db s) in
  let created_item_info :=
    dict_unpack [("id"%string, VInt (item_next_id s))] (model_dump item) in
  (Return (RetDict created_item_info),
   {| items_db := db; item_next_id := item_next_id s + 1 |}).

Definition delete_item (item_id : Z) (s : state) : outcome * state :=
  match items_db s !! item_id with
  | Some _ =>
      (Return RetNone,
       {| items_db := delete item_id (items_db s); item_next_id := item_next_id s |})
  | None =>
      (Raise {| exc_status_code := HTTP_404_NOT_FOUND; detail := "Item not found" |}, s)
  end.

Definition update_item (item_id : Z) (item : Item) (s : state) : outcome * state :=
  match items_db s !! item_id with
  | None =>
      (Raise {| exc_status_code := HTTP_404_NOT_FOUND; detail := "Item not found" |}, s)
  | Some stored =>
      if dict_eqb stored (model_dump item) then
        (Return (RetResponse {| status_code := HTTP_304_NOT_MODIFIED; body := NoBody |}), s)
      else
        let db := <[item_id := model_dump item]> (items_db s) in
        (Return (RetDict (getitem db item_id)),
         {| items_db := db; item_next_id := item_next_id s |})
  end.

(** The three routes of the snapshot, decorators applied. *)
Inductive request :=
  | POST_items (item : Item)
  | DELETE_items (item_id : Z)
  | PUT_items (item_id : Z) (item : Item).

Definition handler (r : request) (s : state) : outcome * state :=
  match r with
  | POST_items item => create_item item s
  | DELETE_items item_id => delete_item item_id s
  | PUT_items item_id item => update_item item_id item s
  end.

Definition decorate (r : request) (o : outcome) : Response :=
  match r with
  | POST_items _ => route HTTP_201_CREATED (Some Item_fields) o
  | DELETE_items _ => route HTTP_204_NO_CONTENT None o
  | PUT_items _ _ => route HTTP_200_OK (Some Item_fields) o
  end.

Definition serve (r : request) (s : state) : Response * state :=
  let '(o, s') := handler r s in (decorate r o, s').

(** A session: the requests served one after the other, each paired with
    what its handler returned or raised, and the final state. *)
Fixpoint run (rs : list request) (s : state) : list (request * outcome) * state :=
  match rs with
  | [] => ([], s)
  | r :: rs' =>
      let '(o, s') := handler r s in
      let '(t, s'') := run rs' s' in
      ((r, o) :: t, s'')
  end.

(** The identifier a create assigned: the ["id"] entry of the
    [created_item_info] it returned. *)
Definition assigned_id (e : request * outcome) : option Z :=
  match e with
  | (POST_items _, Return (RetDict info)) =>
      match dict_get "id" info with
      | Some (VInt i) => Some i
      | _ => None
      end
  | _ => None
  end.

Definition assigned_ids (t : list (request * outcome)) : list Z :=
  omap assigned_id t.

Definition is_create (e : request * outcome) : bool :=
  match e with (POST_items _, Return _) => true | _ => false end.

Definition is_delete (e : request * outcome) : bool :=
  match e with (DELETE_items _, Return _) => true | _ => false end.

Definition count (p : request * outcome -> bool) (t : list (request * outcome)) : Z :=
  Z.of_nat (length (filter (fun e => p e = true) t)).

(** Every key of the mapping lies below the counter, which is positive. *)
Definition keys_below (s : state) : Prop :=
  0 < item_next_id s /\
  forall k, is_Some (items_db s !! k) -> 0 < k < item_next_id s.

(** Every stored record is the dump of an [Item]. *)
Definition all_dumps (s : state) : Prop :=
  forall k d, items_db s !! k = Some d -> exists x, d = model_dump x.

(** The states the running application can be in. *)
Definition reachable (s : state) : Prop := exists rs, s = (run rs initial).2.

(** Payloads for the examples: the seeded records, and a laptop priced
    [0.0], [-0.0] and NaN. *)
Definition laptop : Item := {| name := "Laptop"; price := binary64 1200 0 |}.
Definition keyboard : Item := {| name := "Keyboard"; price := binary64 75 0 |}.
Definition mouse : Item := {| name := "Mouse"; price := binary64 51 (-1) |}.
Definition laptop_zero : Item := {| name := "Laptop"; price := S754_zero false |}.
Definition laptop_neg_zero : Item := {| name := "Laptop"; price := S754_zero true |}.


(** The one key of [items_db] a request may write: the counter for a
    create, the path parameter for a delete or an update. *)
Definition touched_key (r : request) (s : state) : Z :=
  match r with
  | POST_items _ => item_next_id s
  | DELETE_items item_id => item_id
  | PUT_items item_id _ => item_id
  end.

(** The requests that address the record [i]: [DELETE] and [PUT] on
    [/items/i]. *)
Definition addresses (i : Z) (r : request) : Prop :=
  match r with
  | POST_items _ => False
  | DELETE_items item_id => item_id = i
  | PUT_items item_id _ => item_id = i
  end.

End Snapshot12.

(** ** Snapshot 06: validated items, identifiers from the size of the store *)

Module Snapshot06.

(** [class Item(BaseModel)] after validation: [name: str],
    [description: Optional[str]], [price: float], [tax: Optional[float]],
    [tags: List[str]]. *)
Record Item := {
  name : string;
  description : option string;
  price : float;
  tax : option float;
  tags : list string
}.

Definition model_dump (item : Item) : dict :=
  [("name"%string, VStr (name item));
   ("description"%string, from_option VStr VNone (description item));
   ("price"%string, VFloat (price item));
   ("tax"%string, from_option (fun t : float => VFloat t) VNone (tax item));
   ("tags"%string, VStrs (tags item))].

(** The module-level state is [items_db] alone, initially [{}]. *)
Definition initial : gmap Z dict := ∅.

(** The payload of the specification's scenario, after validation. *)
Definition keyboard : Item :=
  {| name := "Keyboard"; description := None; price := binary64 75 0;
     tax := None; tags := [] |}.

(** The same with an infinite tax, which [gt=0] lets through. *)
Definition keyboard_infinite_tax : Item :=
  {| name := "Keyboard"; description := None; price := binary64 75 0;
     tax := Some (S754_infinity false); tags := [] |}.

Definition create_item (item : Item) (items_db : gmap Z dict)
    : outcome * gmap Z dict :=
  let item_id := len items_db + 1 in
  let items_db' := <[item_id := model_dump item]> items_db in
  (Return (RetDict (dict_unpack [("item_id"%string, VInt item_id)]
                                (getitem items_db' item_id))),
   items_db').

Definition read_item (item_id : Z) (items_db : gmap Z dict)
    : outcome * gmap Z dict :=
  match items_db !! item_id with
  | None =>
      (Raise {| exc_status_code := 404; detail := "Item not found" |}, items_db)
  | Some stored =>
      (Return (RetDict (dict_unpack [("item_id"%string, VInt item_id)] stored)),
       items_db)
  end.

(** [@app.post("/items/", status_code=201)] and [@app.get("/items/{item_id}")]. *)
Definition POST_items (item : Item) (items_db : gmap Z dict) : Response * gmap Z dict :=
  let '(o, db) := create_item item items_db in (route 201 None o, db).

Definition GET_item (item_id : Z) (items_db : gmap Z dict) : Response * gmap Z dict :=
  let '(o, db) := read_item item_id items_db in (route HTTP_200_OK None o, db).

(** The two routes as requests, and a session of them. *)
Inductive request :=
  | ReqCreate (item : Item)
  | ReqRead (item_id : Z).

Definition serve (r : request) (items_db : gmap Z dict) : Response * gmap Z dict :=
  match r with
  | ReqCreate item => POST_items item items_db
  | ReqRead item_id => GET_item item_id items_db
  end.

Fixpoint run (rs : list request) (items_db : gmap Z dict)
    : list Response * gmap Z dict :=
  match rs with
  | [] => ([], items_db)
  | r :: rs' =>
      let '(resp, db) := serve r items_db in
      let '(t, db') := run rs' db in
      (resp :: t, db')
  end.

(** The number of creates among the requests. *)
Fixpoint creates (rs : list request) : Z :=
  match rs with
  | [] => 0
  | ReqCreate _ :: rs' => 1 + creates rs'
  | ReqRead _ :: rs' => creates rs'
  end.

(** The keys are exactly [1 .. len]. *)
Definition dense (items_db : gmap Z dict) : Prop :=
  forall k, is_Some (items_db !! k) <-> 1 <= k <= len items_db.

End Snapshot06.

(** ** Snapshot 10: response models hiding internal fields *)

Module Snapshot10.

Record UserIn := {
  username : string;
  password : string;
  email : string;
  full_name : option string
}.

(** [class UserOut(BaseModel)] *)
Definition UserOut_fields : list string := ["username"; "email"; "full_name"]%string.

Record ItemInternal := {
  name : string;
  price : float;
  owner_id : Z;
  secret_code : string
}.

(** [class ItemPublic(BaseModel)] *)
Definition ItemPublic_fields : list string := ["name"; "price"]%string.

(** A model object as the framework sees it: its fields by name. *)
Definition UserIn_attrs (u : UserIn) : dict :=
  [("username"%string, VStr (username u));
   ("password"%string, VStr (password u));
   ("email"%string, VStr (email u));
   ("full_name"%string, from_option VStr VNone (full_name u))].

Definition ItemInternal_attrs (i : ItemInternal) : dict :=
  [("name"%string, VStr (name i));
   ("price"%string, VFloat (price i));
   ("owner_id"%string, VInt (owner_id i));
   ("secret_code"%string, VStr (secret_code i))].

Record state := {
  fake_users_db : gmap string UserIn;
  fake_items_db : gmap Z ItemInternal
}.

Definition initial : state :=
  {| fake_users_db := ∅;
     fake_items_db :=
       <[1 := {| name := "Keyboard"; price := binary64 75 0; owner_id := 1; secret_code := "abc" |}]>
       (<[2 := {| name := "Mouse"; price := binary64 51 (-1); owner_id := 1; secret_code := "def" |}]>
       (<[3 := {| name := "Monitor"; price := binary64 300 0; owner_id := 2; secret_code := "ghi" |}]> ∅)) |}.

Definition create_user (user : UserIn) (s : state) : outcome * state :=
  (Return (RetDict (UserIn_attrs user)),
   {| fake_users_db := <[username user := user]> (fake_users_db s);
      fake_items_db := fake_items_db s |}).

Definition read_user (username : string) (s : state) : outcome * state :=
  match fake_users_db s !! username with
  | None => (Raise {| exc_status_code := 404; detail := "User not found" |}, s)
  | Some user_in_db => (Return (RetDict (UserIn_attrs user_in_db)), s)
  end.

Definition read_items (s : state) : outcome * state :=
  let internal_items_list := values (fake_items_db s) in
  (Return (RetList (map ItemInternal_attrs internal_items_list)), s).

Definition read_single_item (item_id : Z) (s : state) : outcome * state :=
  match fake_items_db s !! item_id with
  | None => (Raise {| exc_status_code := 404; detail := "Item not found" |}, s)
  | Some internal_item => (Return (RetDict (ItemInternal_attrs internal_item)), s)
  end.

(** The routes that return records, decorators applied. *)
Inductive request :=
  | POST_users (user : UserIn)
  | GET_user (username : string)
  | GET_items
  | GET_item (item_id : Z).

Definition handler (r : request) (s : state) : outcome * state :=
  match r with
  | POST_users user => create_user user s
  | GET_user username => read_user username s
  | GET_items => read_items s
  | GET_item item_id => read_single_item item_id s
  end.

Definition decorate (r : request) (o : outcome) : Response :=
  match r with
  | POST_users _ => route 201 (Some UserOut_fields) o
  | GET_user _ => route HTTP_200_OK (Some UserOut_fields) o
  | GET_items => route HTTP_200_OK (Some ItemPublic_fields) o
  | GET_item _ => route HTTP_200_OK (Some ItemPublic_fields) o
  end.

Definition serve (r : request) (s : state) : Response * state :=
  let '(o, s') := handler r s in (decorate r o, s').

(** The fields the models declare for internal use only: [password] of
    [UserIn], [owner_id] and [secret_code] of [ItemInternal]. *)
Definition internal_only : list string :=
  ["password"; "owner_id"; "secret_code"]%string.

(** Two payloads with the same username, for the examples. *)
Definition alice : UserIn :=
  {| username := "alice"; password := "hunter2";
     email := "alice@example.com"; full_name := None |}.
Definition alice_again : UserIn :=
  {| username := "alice"; password := "swordfish";
     email := "a@example.org"; full_name := Some "Alice A." |}.

(** A session: the requests served one after the other. *)
Fixpoint run (rs : list request) (s : state) : list Response * state :=
  match rs with
  | [] => ([], s)
  | r :: rs' =>
      let '(resp, s') := serve r s in
      let '(t, s'') := run rs' s' in
      (resp :: t, s'')
  end.

(** What the router accepts as the path parameter of
    [/user/{username}]: a path segment, not empty and without a slash.
    Only for such a name does a [GET] request reach [read_user]. *)
Definition path_segment (s : string) : Prop :=
  s <> EmptyString /\
  forallb (fun c => negb (Ascii.eqb c "/"%char)) (list_ascii_of_string s) = true.

(** [r] creates a user under the name [u]. *)
Definition creates_user (u : string) (r : request) : Prop :=
  match r with
  | POST_users user => username user = u
  | _ => False
  end.

(** The same data with the internal-only fields blanked. *)
Definition scrub_user (u : UserIn) : UserIn :=
  {| username := username u; password := "";
     email := email u; full_name := full_name u |}.

Definition scrub_item (i : ItemInternal) : ItemInternal :=
  {| name := name i; price := price i; owner_id := 0; secret_code := "" |}.

Definition scrub (s : state) : state :=
  {| fake_users_db := scrub_user <$> fake_users_db s;
     fake_items_db := scrub_item <$> fake_items_db s |}.

Definition scrub_request (r : request) : request :=
  match r with
  | POST_users user => POST_users (scrub_user user)
  | _ => r
  end.

End Snapshot10.

(** ** Nested JSON values

    The handlers of snapshots 04, 05 and 07 return dicts that hold dicts,
    lists and booleans. *)

#[local] Set Warnings "-register-all".

Inductive json :=
  | JNull
  | JBool (b : bool)
  | JInt (z : Z)
  | JFloat (f : float)
  | JStr (s : string)
  | JArr (l : list json)
  | JObj (fields : list (string * json)).

(** A dict of JSON values, in insertion order. *)
Definition obj := list (string * json).

Fixpoint obj_get (k : string) (d : obj) : option json :=
  match d with
  | [] => None
  | (k', v) :: d' => if String.eqb k k' then Some v else obj_get k d'
  end.

(** [d[k] = v] *)
Fixpoint obj_set (k : string) (v : json) (d : obj) : obj :=
  match d with
  | [] => [(k, v)]
  | (k', v') :: d' =>
      if String.eqb k k' then (k, v) :: d' else (k', v') :: obj_set k v d'
  end.

(** [a.update(b)], also the display [{**a, **b}]. *)
Definition obj_update (a b : obj) : obj :=
  fold_left (fun acc kv => obj_set kv.1 kv.2 acc) b a.

(** [if q:] on an [Optional[str]]: the string when the test passes.
    [None] and the empty string are false. *)
Definition truthy_str (q : option string) : option string :=
  match q with
  | Some s => if String.eqb s EmptyString then None else Some s
  | None => None
  end.

(** [if t:] on an [Optional[float]]: the float when the test passes.
    [None], [0.0] and [-0.0] are false; everything else, NaN included, is
    true. *)
Definition truthy_float (t : option float) : option float :=
  match t with
  | Some f => if SFeqb f (S754_zero false) then None else Some f
  | None => None
  end.

(** Python's [x + y] on floats: binary64 addition. *)
Definition float_add (x y : float) : float := SFadd 53 1024 x y.

(** ** Snapshot 04: path and query parameters *)

Module Snapshot04.

(** The index adjustment of a slice bound ([PySlice_AdjustIndices], step
    1): a negative bound counts from the end, and both ends are clamped. *)
Definition adjust_index (i n : Z) : Z :=
  if i <? 0 then Z.max (i + n) 0 else Z.min i n.

(** [l[start:stop]] *)
Definition slice {A} (l : list A) (start stop : Z) : list A :=
  let n := Z.of_nat (length l) in
  let a := adjust_index start n in
  let b := adjust_index stop n in
  take (Z.to_nat (b - a)) (drop (Z.to_nat a) l).

Definition fake_items_db : list obj :=
  [[("item_name"%string, JStr "맥북 프로")];
   [("item_name"%string, JStr "아이폰 15")];
   [("item_name"%string, JStr "에어팟 맥스")]].

(** [read_items_with_query], over the module-level list [db]. *)
Definition read_items_with_query (db : list obj) (skip limit : Z) : obj :=
  [("query_params"%string,
    JObj [("skip"%string, JInt skip); ("limit"%string, JInt limit)]);
   ("itmes"%string, JArr (JObj <$> slice db skip (skip + limit)))].

(** The items of a page, read back from the response. *)
Definition page_of (resp : obj) : list json :=
  match obj_get "itmes" resp with
  | Some (JArr l) => l
  | _ => []
  end.

End Snapshot04.

(** ** Snapshot 05: request bodies *)

Module Snapshot05.

Record Item := {
  name : string;
  description : option string;
  price : float;
  tax : option float
}.

Definition model_dump (item : Item) : obj :=
  [("name"%string, JStr (name item));
   ("description"%string, from_option JStr JNull (description item));
   ("price"%string, JFloat (price item));
   ("tax"%string, from_option JFloat JNull (tax item))].

Definition create_item (item : Item) : obj :=
  let item_dict := model_dump item in
  match truthy_float (tax item) with
  | Some tax =>
      let price_with_tax := float_add (price item) tax in
      obj_update item_dict [("price_with_tax"%string, JFloat price_with_tax)]
  | None => item_dict
  end.

Definition update_item_complex (item_id : Z) (item : Item) (q : option string) : obj :=
  let result := obj_update [("item_id"%string, JInt item_id)] (model_dump item) in
  match truthy_str q with
  | Some q => obj_update result [("query_param_q"%string, JStr q)]
  | None => result
  end.

End Snapshot05.

(** ** Snapshot 07: dependencies *)

Module Snapshot07.

Definition HTTP_403_FORBIDDEN : Z := 403.

(** A dependency either yields its value or raises. *)
Definition verify_api_key (x_api_key : option string) : HTTPException + string :=
  match x_api_key with
  | Some key =>
      if String.eqb key "fakeapikey" then inr key
      else inl {| exc_status_code := HTTP_403_FORBIDDEN; detail := "Invalid API Key" |}
  | None => inl {| exc_status_code := HTTP_403_FORBIDDEN; detail := "Invalid API Key" |}
  end.

(** [verify_admin_access], given the value of its sub-dependency. *)
Definition verify_admin_access (api_key : string) : obj :=
  [("is_admin"%string, JBool true)].

Definition read_secure_data (api_key : string) : obj :=
  [("message"%string, JStr "This is secure data!");
   ("requester_api_key"%string, JStr api_key)].

Definition read_admin_data (admin_info : obj) : obj :=
  [("message"%string, JStr "Welcome, Admin");
   ("access_level"%string, JObj admin_info)].

(** The response to a failed dependency: the handler is not run. *)
Definition error_response (e : HTTPException) : Z * obj :=
  (exc_status_code e, [("detail"%string, JStr (detail e))]).

(** [GET /secure-data/]: [Depends(verify_api_key)], then the handler. *)
Definition GET_secure_data (x_api_key : option string) : Z * obj :=
  match verify_api_key x_api_key with
  | inl e => error_response e
  | inr api_key => (HTTP_200_OK, read_secure_data api_key)
  end.

(** [GET /admin-only/]: [Depends(verify_admin_access)], which itself
    depends on [verify_api_key]. *)
Definition GET_admin_only (x_api_key : option string) : Z * obj :=
  match verify_api_key x_api_key with
  | inl e => error_response e
  | inr api_key => (HTTP_200_OK, read_admin_data (verify_admin_access api_key))
  end.

End Snapshot07.


(** * Properties *)

(** ** Floats and dictionaries *)

Lemma SFeqb_refl (f : float) : f <> S754_nan -> SFeqb f f = true.
Proof.
  destruct f as [s|s| |s m e]; unfold SFeqb; simpl; try congruence.
  - by destruct s.
  - intros _. rewrite Z.compare_refl.
    change (Pos.compare_cont Eq m m) with (Pos.compare m m).
    rewrite Pos.compare_refl.
    by destruct s.
Qed.

Lemma SFeqb_true (a b : float) :
  SFeqb a b = true -> a = b \/ (is_zero a /\ is_zero b).
Proof.
  unfold SFeqb.
  destruct a as [s|s| |s m e], b as [s'|s'| |s' m' e']; simpl;
    try (by auto); try (by destruct s); try (by destruct s');
    try (by destruct s, s'; auto).
  change (Pos.compare_cont Eq m m') with (Pos.compare m m').
  destruct s, s'; try discriminate;
    destruct (Z.compare_spec e e') as [->| |]; try discriminate;
    destruct (Pos.compare_spec m m') as [->| |]; try discriminate;
    auto.
Qed.

Lemma float_is_eq (a b : pyfloat) : float_is a b = true -> a = b.
Proof.
  destruct a as [[]|i], b as [[]|j]; simpl; try discriminate; try done.
  by intros ->%N.eqb_eq.
Qed.

Lemma float_eqb_true (a b : pyfloat) :
  float_eqb a b = true -> a = b \/ (is_zero a /\ is_zero b).
Proof.
  destruct a as [v|i], b as [w|j]; simpl; try discriminate.
  intros [->|[Hv Hw]]%SFeqb_true; [by left|by right].
Qed.

Lemma float_eqb_refl (a : pyfloat) : ~ is_nan a -> float_eqb a a = true.
Proof.
  destruct a as [v|i]; simpl; [|by intros []].
  intros Hnan. apply SFeqb_refl. intros ->. by apply Hnan.
Qed.


(** ** Snapshot 12: the store and its counter *)

Module Store12.
Import Snapshot12.

Lemma dict_eqb_model_dump (x y : Item) :
  dict_eqb (model_dump x) (model_dump y)
  = String.eqb (name y) (name x)
    && (float_is (price y) (price x) || float_eqb (price y) (price x)).
Proof.
  unfold dict_eqb; cbn -[float_is float_eqb].
  destruct (price y); by rewrite !andb_true_r.
Qed.


Lemma created_item_info_id (n : Z) (item : Item) :
  dict_unpack [("id"%string, VInt n)] (model_dump item)
  = ("id"%string, VInt n) :: model_dump item.
Proof. reflexivity. Qed.

Lemma assigned_id_create (item : Item) (s : state) :
  assigned_id (POST_items item, (create_item item s).1) = Some (item_next_id s).
Proof. reflexivity. Qed.

Lemma assigned_id_other (r : request) (s : state) :
  (forall item, r <> POST_items item) ->
  assigned_id (r, (handler r s).1) = None.
Proof. destruct r; intros H; [by destruct (H item) | done | done]. Qed.

Lemma keys_below_initial : keys_below initial.
Proof.
  split; [done|]. intros k [v Hk]. unfold initial in Hk; simpl in *.
  destruct (decide (k = 1)) as [->|]; [lia|].
  destruct (decide (k = 2)) as [->|]; [lia|].
  by rewrite !lookup_insert_ne, lookup_empty in Hk.
Qed.

Lemma keys_below_handler (r : request) (s : state) :
  keys_below s -> keys_below (handler r s).2.
Proof.
  intros [Hpos Hkeys]. destruct r as [item|item_id|item_id item]; simpl.
  - split; simpl; [lia|]. intros k.
    destruct (decide (k = item_next_id s)) as [->|Hne]; [lia|].
    rewrite lookup_insert_ne by done. intros Hk. specialize (Hkeys k Hk). lia.
  - unfold delete_item. destruct (items_db s !! item_id) eqn:E; simpl; [|done].
    split; simpl; [done|]. intros k.
    destruct (decide (k = item_id)) as [->|Hne].
    + rewrite lookup_delete_eq. by intros [? ?].
    + rewrite lookup_delete_ne by done. apply Hkeys.
  - unfold update_item. destruct (items_db s !! item_id) eqn:E; simpl; [|done].
    destruct (dict_eqb _ _); simpl; [done|].
    split; simpl; [done|]. intros k.
    destruct (decide (k = item_id)) as [->|Hne].
    + intros _. apply Hkeys. by rewrite E.
    + rewrite lookup_insert_ne by done. apply Hkeys.
Qed.

Lemma next_id_handler (r : request) (s : state) :
  item_next_id (handler r s).2
  = item_next_id s +
    match assigned_id (r, (handler r s).1) with Some _ => 1 | None => 0 end.
Proof.
  destruct r as [item|item_id|item_id item]; simpl.
  - done.
  - unfold delete_item. destruct (items_db s !! item_id); simpl; lia.
  - unfold update_item. destruct (items_db s !! item_id); simpl; [|lia].
    destruct (dict_eqb _ _); simpl; lia.
Qed.

Lemma run_cons (r : request) (rs : list request) (s : state) :
  run (r :: rs) s
  = ((r, (handler r s).1) :: (run rs (handler r s).2).1,
     (run rs (handler r s).2).2).
Proof.
  cbn [run]. destruct (handler r s) as [o s']. cbn [fst snd].
  by destruct (run rs s') as [t s''].
Qed.

Lemma keys_below_run (rs : list request) (s : state) :
  keys_below s -> keys_below (run rs s).2.
Proof.
  revert s. induction rs as [|r rs IH]; intros s Hs; [done|].
  rewrite run_cons. simpl. by apply IH, keys_below_handler.
Qed.

(** The identifiers of a session lie between the counter before and the
    counter after, in strictly increasing order. *)
Lemma run_assigned_ids (rs : list request) (s : state) :
  StronglySorted Z.lt (assigned_ids (run rs s).1) /\
  Forall (fun i => item_next_id s <= i < item_next_id (run rs s).2)
         (assigned_ids (run rs s).1) /\
  item_next_id s <= item_next_id (run rs s).2.
Proof.
  revert s. induction rs as [|r rs IH]; intros s.
  { simpl. repeat split; [constructor|constructor|lia]. }
  rewrite run_cons. cbn [fst snd].
  destruct (IH (handler r s).2) as (Hsorted & Hrange & Hmono).
  pose proof (next_id_handler r s) as Hnext.
  unfold assigned_ids in *. cbn [omap list_omap].
  destruct (assigned_id (r, (handler r s).1)) as [i|] eqn:Hi.
  - assert (i = item_next_id s) as ->.
    { destruct r as [item| |]; simpl in Hi; [|done|done].
      by injection Hi. }
    repeat split; [|constructor|lia].
    + constructor; [done|]. eapply Forall_impl; [exact Hrange|].
      simpl. intros; lia.
    + lia.
    + eapply Forall_impl; [exact Hrange|]. simpl. intros; lia.
  - repeat split; [done| |lia].
    eapply Forall_impl; [exact Hrange|]. simpl. intros; lia.
Qed.

Lemma run_deleted_below (rs : list request) (s : state) pre i post :
  keys_below s ->
  (run rs s).1 = pre ++ (DELETE_items i, Return RetNone) :: post ->
  Forall (fun j => i < j) (assigned_ids post).
Proof.
  revert s pre. induction rs as [|r rs IH]; intros s pre Hs.
  { simpl. by destruct pre. }
  rewrite run_cons. cbn [fst]. destruct pre as [|p pre]; simpl.
  - intros [= -> Ho <-].
    assert (i < item_next_id s /\ item_next_id (delete_item i s).2 = item_next_id s)
      as [Hlt Heq].
    { simpl in Ho. unfold delete_item in *.
      destruct (items_db s !! i) eqn:E; [|done].
      split; [|done]. apply Hs. by rewrite E. }
    destruct (run_assigned_ids rs (delete_item i s).2) as (_ & Hrange & _).
    eapply Forall_impl; [exact Hrange|]. simpl. intros; lia.
  - intros [= _ Ht]. eapply IH; [|exact Ht]. by apply keys_below_handler.
Qed.

Lemma StronglySorted_lt_NoDup (l : list Z) : StronglySorted Z.lt l -> NoDup l.
Proof.
  induction 1 as [|x l _ IH Hx]; constructor; [|done].
  intros Hin. rewrite Forall_forall in Hx. specialize (Hx x Hin). lia.
Qed.

(** C2: in every session that starts from the initial store of snapshot 12
    (creates, deletes and updates in any order), the identifiers assigned
    by the successive creates are strictly increasing, positive and
    pairwise distinct, and an identifier that a delete removed is not
    assigned by any later create. *)
Theorem assigned_ids_increasing_never_reused (rs : list request) :
  StronglySorted Z.lt (assigned_ids (run rs initial).1) /\
  Forall (fun i => 0 < i) (assigned_ids (run rs initial).1) /\
  NoDup (assigned_ids (run rs initial).1) /\
  (forall pre i post,
     (run rs initial).1 = pre ++ (DELETE_items i, Return RetNone) :: post ->
     i ∉ assigned_ids post).
Proof.
  destruct (run_assigned_ids rs initial) as (Hsorted & Hrange & _).
  repeat split.
  - exact Hsorted.
  - eapply Forall_impl; [exact Hrange|]. simpl. intros; lia.
  - by apply StronglySorted_lt_NoDup.
  - intros pre i post Ht Hin.
    pose proof (run_deleted_below rs initial pre i post keys_below_initial Ht) as Hlt.
    rewrite Forall_forall in Hlt. specialize (Hlt i Hin). lia.
Qed.

(** A session with a delete in the middle: the create after the delete of
    3 is assigned 4. *)
Lemma assigned_ids_increasing_never_reused_witness :
  assigned_ids
    (run [POST_items keyboard; DELETE_items 3; POST_items mouse] initial).1
  = [3; 4] /\
  3 ∉ assigned_ids
        [(POST_items mouse,
          Return (RetDict (dict_unpack [("id"%string, VInt 4)] (model_dump mouse))))].
Proof.
  split; [reflexivity|].
  apply (proj2 (proj2 (proj2
           (assigned_ids_increasing_never_reused
              [POST_items keyboard; DELETE_items 3; POST_items mouse])))
           [(POST_items keyboard, (create_item keyboard initial).1)] 3).
  reflexivity.
Defined.

(** *** The number of live records *)

Lemma count_cons p e t :
  count p (e :: t) = (if p e then 1 else 0) + count p t.
Proof.
  unfold count. rewrite filter_cons. destruct (p e) eqn:E.
  - rewrite decide_True by done. simpl length. lia.
  - rewrite decide_False by done. lia.
Qed.

Lemma length_values {A} (d : gmap Z A) : Z.of_nat (length (values d)) = len d.
Proof.
  unfold values, len. rewrite length_fmap.
  by rewrite (Permutation_length (merge_sort_Permutation _ _)), length_map_to_list.
Qed.

Lemma len_handler (r : request) (s : state) :
  keys_below s ->
  len (items_db (handler r s).2)
  = len (items_db s)
    + (if is_create (r, (handler r s).1) then 1 else 0)
    - (if is_delete (r, (handler r s).1) then 1 else 0).
Proof.
  intros [Hpos Hkeys]. unfold len.
  destruct r as [item|item_id|item_id item]; simpl.
  - rewrite map_size_insert_None; [lia|].
    destruct (items_db s !! item_next_id s) eqn:E; [|done].
    assert (is_Some (items_db s !! item_next_id s)) as Hk by (by rewrite E).
    specialize (Hkeys _ Hk). lia.
  - unfold delete_item. destruct (items_db s !! item_id) eqn:E; simpl; [|lia].
    assert (is_Some (items_db s !! item_id)) as Hk by (by rewrite E).
    rewrite map_size_delete_Some by done.
    assert (size (items_db s) <> 0%nat); [|lia].
    intros Hz. apply map_size_empty_inv in Hz. rewrite Hz in E.
    by rewrite lookup_empty in E.
  - unfold update_item. destruct (items_db s !! item_id) eqn:E; simpl; [|lia].
    destruct (dict_eqb _ _); simpl; [lia|].
    rewrite map_size_insert_Some; [lia|]. by rewrite E.
Qed.

Lemma len_run (rs : list request) (s : state) :
  keys_below s ->
  len (items_db (run rs s).2)
  = len (items_db s) + count is_create (run rs s).1 - count is_delete (run rs s).1.
Proof.
  revert s. induction rs as [|r rs IH]; intros s Hs.
  { simpl. unfold count. simpl. lia. }
  rewrite run_cons. cbn [fst snd]. rewrite !count_cons.
  rewrite IH by (by apply keys_below_handler).
  rewrite len_handler by done. lia.
Qed.

(** C3, as the code has it: after every session from the initial store of
    snapshot 12, the number of records listed equals the two seeded
    records plus the number of successful creates minus the number of
    successful deletes. *)
Theorem listed_length_seed_plus_creates_minus_deletes (rs : list request) :
  Z.of_nat (length (values (items_db (run rs initial).2)))
  = 2 + count is_create (run rs initial).1 - count is_delete (run rs initial).1.
Proof.
  rewrite length_values, len_run by apply keys_below_initial.
  reflexivity.
Qed.

(** C3 as stated fails before any request is served: two records are
    listed, with no create and no delete performed. *)
Lemma listed_length_not_creates_minus_deletes :
  Z.of_nat (length (values (items_db (run [] initial).2)))
  <> count is_create (run [] initial).1 - count is_delete (run [] initial).1.
Proof. vm_compute. discriminate. Qed.

(** *** Update *)

Lemma all_dumps_initial : all_dumps initial.
Proof.
  intros k d. unfold initial; simpl.
  destruct (decide (k = 1)) as [->|].
  { rewrite lookup_insert_eq. intros [= <-].
    by exists {| name := "Laptop"; price := binary64 1200 0 |}. }
  rewrite lookup_insert_ne by done.
  destruct (decide (k = 2)) as [->|].
  { rewrite lookup_insert_eq. intros [= <-].
    by exists {| name := "Keyboard"; price := binary64 75 0 |}. }
  by rewrite lookup_insert_ne, lookup_empty.
Qed.

Lemma all_dumps_handler (r : request) (s : state) :
  all_dumps s -> all_dumps (handler r s).2.
Proof.
  intros Hs. destruct r as [item|item_id|item_id item]; simpl.
  - intros k d. simpl. destruct (decide (k = item_next_id s)) as [->|].
    + rewrite lookup_insert_eq. intros [= <-]. by exists item.
    + rewrite lookup_insert_ne by done. apply Hs.
  - unfold delete_item. destruct (items_db s !! item_id) as [stored|]; simpl; [|done].
    intros k d. simpl. destruct (decide (k = item_id)) as [->|].
    + by rewrite lookup_delete_eq.
    + rewrite lookup_delete_ne by done. apply Hs.
  - unfold update_item. destruct (items_db s !! item_id) as [stored|]; simpl; [|done].
    destruct (dict_eqb _ _); simpl; [done|].
    intros k d. simpl. destruct (decide (k = item_id)) as [->|].
    + rewrite lookup_insert_eq. intros [= <-]. by exists item.
    + rewrite lookup_insert_ne by done. apply Hs.
Qed.

Lemma all_dumps_run (rs : list request) (s : state) :
  all_dumps s -> all_dumps (run rs s).2.
Proof.
  revert s. induction rs as [|r rs IH]; intros s Hs; [done|].
  rewrite run_cons. simpl. by apply IH, all_dumps_handler.
Qed.

(** What [update_item] does to a stored dump [x]: it either installs the
    dump of [y], or finds the two equal under [==] and answers 304 without
    writing. *)
Lemma update_item_over_dump (s : state) (item_id : Z) (x y : Item) :
  items_db s !! item_id = Some (model_dump x) ->
  (update_item item_id y s
     = (Return (RetDict (model_dump y)),
        {| items_db := <[item_id := model_dump y]> (items_db s);
           item_next_id := item_next_id s |}) /\
   dict_eqb (model_dump x) (model_dump y) = false)
  \/
  (update_item item_id y s
     = (Return (RetResponse {| status_code := HTTP_304_NOT_MODIFIED; body := NoBody |}), s) /\
   name x = name y /\
   (price x = price y \/ (is_zero (price x) /\ is_zero (price y)))).
Proof.
  intros Hx. unfold update_item, getitem. rewrite Hx, lookup_insert_eq.
  destruct (dict_eqb (model_dump x) (model_dump y)) eqn:E; [right|by left].
  split; [done|]. rewrite dict_eqb_model_dump in E.
  apply andb_true_iff in E as [Hn Hp]. apply String.eqb_eq in Hn.
  split; [done|]. apply orb_true_iff in Hp as [Hp|Hp].
  - left. symmetry. by apply float_is_eq.
  - destruct (float_eqb_true _ _ Hp) as [->|[? ?]]; auto.
Qed.

(** C5, as the code has it: for every id present in a reachable store and
    every payload [y], [update_item] does not fail, and afterwards the
    record stored under the id is exactly the dump of [y], whatever the
    record before was; the one exception is an update answered 304 whose
    payload differs from the stored record in the sign of a zero price
    only, and then the store is left as it was. *)
Theorem update_then_read (s : state) (item_id : Z) (y : Item) :
  reachable s ->
  is_Some (items_db s !! item_id) ->
  exists r, (update_item item_id y s).1 = Return r /\
    (items_db (update_item item_id y s).2 !! item_id = Some (model_dump y)
     \/ (r = RetResponse {| status_code := HTTP_304_NOT_MODIFIED; body := NoBody |} /\
         (update_item item_id y s).2 = s /\
         exists x, items_db s !! item_id = Some (model_dump x) /\
                   name x = name y /\
                   is_zero (price x) /\ is_zero (price y))).
Proof.
  intros [rs ->] [d Hd].
  destruct (all_dumps_run rs initial all_dumps_initial item_id d Hd) as [x ->].
  destruct (update_item_over_dump _ item_id x y Hd)
    as [[-> _]|(-> & Hn & [Hp|[Hx Hy]])]; simpl.
  - eexists; split; [done|]. left. apply lookup_insert_eq.
  - eexists; split; [done|]. left. rewrite Hd.
    destruct x, y; simpl in *; by subst.
  - eexists; split; [done|]. right. repeat split; try done. by exists x.
Qed.

(** Replacing the seeded keyboard by a mouse. *)
Lemma update_then_read_witness :
  exists r, (update_item 2 mouse initial).1 = Return r /\
    (items_db (update_item 2 mouse initial).2 !! 2 = Some (model_dump mouse)
     \/ (r = RetResponse {| status_code := HTTP_304_NOT_MODIFIED; body := NoBody |} /\
         (update_item 2 mouse initial).2 = initial /\
         exists x, items_db initial !! 2 = Some (model_dump x) /\
                   name x = name mouse /\
                   is_zero (price x) /\ is_zero (price mouse))).
Proof.
  apply (update_then_read initial 2 mouse).
  - by exists [].
  - simpl. by eexists.
Defined.

(** C5 as stated fails where the stored price is [0.0] and the payload's
    is [-0.0]: the id is present, the update does not fail (it is answered
    304), and the record read back is the old one, not the payload. *)
Lemma update_signed_zero_keeps_stored :
  reachable (run [PUT_items 1 laptop_zero] initial).2 /\
  is_Some (items_db (run [PUT_items 1 laptop_zero] initial).2 !! 1) /\
  (update_item 1 laptop_neg_zero (run [PUT_items 1 laptop_zero] initial).2).1
    = Return (RetResponse {| status_code := HTTP_304_NOT_MODIFIED; body := NoBody |}) /\
  items_db (update_item 1 laptop_neg_zero (run [PUT_items 1 laptop_zero] initial).2).2 !! 1
    = Some (model_dump laptop_zero) /\
  items_db (update_item 1 laptop_neg_zero (run [PUT_items 1 laptop_zero] initial).2).2 !! 1
    <> Some (model_dump laptop_neg_zero).
Proof. repeat split; [by eexists|by eexists|done]. Qed.




End Store12.

(** ** Snapshot 10: projections and the user store *)

Module Store10.
Import Snapshot10.

Lemma project_keys (fields : list string) (d : dict) (k : string) :
  k ∈ dict_keys (project fields d) -> k ∈ fields.
Proof.
  unfold dict_keys, project. intros Hk.
  apply list_elem_of_fmap in Hk as ([k' v] & -> & Hin).
  apply list_elem_of_filter in Hin as [Hf _].
  by apply bool_decide_unpack in Hf.
Qed.

Lemma serialize_keys (fields : list string) (d : dict) (k : string) :
  k ∈ dict_keys (serialize fields d) -> k ∈ fields.
Proof.
  unfold serialize, dict_keys. rewrite <- list_fmap_compose.
  rewrite (list_fmap_ext _ fst) by (by intros ? [k' v] ?).
  apply project_keys.
Qed.

Lemma declared_not_internal :
  Forall (fun k => k ∉ internal_only)
         ("detail"%string :: UserOut_fields ++ ItemPublic_fields).
Proof.
  unfold UserOut_fields, ItemPublic_fields; simpl.
  repeat (constructor; [cbv beta; apply (bool_decide_unpack _); by vm_compute|]).
  constructor.
Qed.

Lemma route_keys (status : Z) (fields : list string) (o : outcome) :
  (forall r, o <> Return (RetResponse r)) ->
  Forall (fun k => k ∈ "detail"%string :: fields)
         (body_keys (body (route status (Some fields) o))).
Proof.
  intros Hr. apply Forall_forall. intros k.
  destruct o as [[d|l| |r]|e]; simpl.
  - intros Hk. right. by eapply serialize_keys.
  - intros Hk. apply list_elem_of_In, in_concat in Hk as (ks & Hks & Hk).
    apply in_map_iff in Hks as (d' & <- & Hd').
    apply in_map_iff in Hd' as (d & <- & _).
    right. eapply serialize_keys. by apply list_elem_of_In.
  - by intros ?%elem_of_nil.
  - by destruct (Hr r).
  - intros ->%list_elem_of_singleton. by left.
Qed.

Lemma serve_response (r : request) (s : state) :
  (serve r s).1 = decorate r (handler r s).1.
Proof. unfold serve. by destruct (handler r s). Qed.

(** C7: whatever the stores hold, the body of the response of every route
    of snapshot 10 that returns records through a response model
    ([UserOut] for the user routes, [ItemPublic] for the item routes) has
    no key [password], [owner_id] or [secret_code]. *)
Theorem projected_output_hides_internal_fields (r : request) (s : state) :
  Forall (fun k => k ∉ internal_only) (body_keys (body (serve r s).1)).
Proof.
  pose proof declared_not_internal as Hdecl. rewrite Forall_forall in Hdecl.
  assert (forall status fields o,
            (forall r', o <> Return (RetResponse r')) ->
            fields ⊆ UserOut_fields ++ ItemPublic_fields ->
            Forall (fun k => k ∉ internal_only)
                   (body_keys (body (route status (Some fields) o)))) as Hroute.
  { intros status fields o Ho Hsub.
    eapply Forall_impl; [by apply route_keys|]. simpl. intros k Hk.
    apply Hdecl. apply elem_of_cons in Hk as [->|Hk]; [by left|].
    right. by apply Hsub. }
  rewrite serve_response.
  destruct r as [user|uname| |item_id]; cbn [decorate handler];
    apply Hroute;
    try (intros k Hk; apply elem_of_app; by (left + right)).
  - done.
  - intros r'. unfold read_user. by destruct (fake_users_db s !! uname).
  - done.
  - intros r'. unfold read_single_item. by destruct (fake_items_db s !! item_id).
Qed.

(** The projection keeps the public fields: the routes answer with
    exactly the declared ones (the price as [null] if it is not finite). *)
Lemma read_single_item_body (item_id : Z) (s : state) (i : ItemInternal) :
  fake_items_db s !! item_id = Some i ->
  serve (GET_item item_id) s
  = ({| status_code := HTTP_200_OK;
        body := JSON [("name"%string, VStr (name i));
                      ("price"%string, null_non_finite (VFloat (price i)))] |}, s).
Proof. intros Hi. unfold serve; simpl. unfold read_single_item. by rewrite Hi. Qed.

(** C10: creating a user whose username is already a key of
    [fake_users_db] does not fail: the answer is 201 with the projection
    of the new payload, the entry under that username now holds the new
    payload (password included), no key is added and every other entry,
    as well as [fake_items_db], is as before. *)
Theorem create_user_existing_username_overwrites
    (s : state) (user old : UserIn) :
  fake_users_db s !! username user = Some old ->
  (serve (POST_users user) s).1
    = {| status_code := 201;
         body := JSON [("username"%string, VStr (username user));
                       ("email"%string, VStr (email user));
                       ("full_name"%string, from_option VStr VNone (full_name user))] |} /\
  fake_users_db (serve (POST_users user) s).2 !! username user = Some user /\
  (forall u, u <> username user ->
     fake_users_db (serve (POST_users user) s).2 !! u = fake_users_db s !! u) /\
  dom (fake_users_db (serve (POST_users user) s).2) = dom (fake_users_db s) /\
  fake_items_db (serve (POST_users user) s).2 = fake_items_db s.
Proof.
  intros Hold. unfold serve; simpl. repeat split.
  - by destruct user as [u p e [f|]].
  - apply lookup_insert_eq.
  - intros u Hu. by rewrite lookup_insert_ne.
  - rewrite dom_insert_L. apply subseteq_union_1_L, singleton_subseteq_l.
    by eapply elem_of_dom_2.
Qed.

Lemma create_user_existing_username_overwrites_witness :
  fake_users_db (serve (POST_users alice) initial).2 !! "alice"%string = Some alice /\
  (serve (POST_users alice_again) (serve (POST_users alice) initial).2).1
    = {| status_code := 201;
         body := JSON [("username"%string, VStr "alice");
                       ("email"%string, VStr "a@example.org");
                       ("full_name"%string, VStr "Alice A.")] |} /\
  fake_users_db (serve (POST_users alice_again) (serve (POST_users alice) initial).2).2
    !! "alice"%string = Some alice_again.
Proof.
  assert (fake_users_db (serve (POST_users alice) initial).2 !! username alice_again
          = Some alice) as H by reflexivity.
  split; [exact H|].
  destruct (create_user_existing_username_overwrites _ alice_again alice H)
    as (Hresp & Hstored & _).
  split; [exact Hresp | exact Hstored].
Defined.

End Store10.

(** ** Snapshot 06: create and read *)

Module Store06.
Import Snapshot06.

Lemma item_info (item_id : Z) (item : Item) :
  dict_unpack [("item_id"%string, VInt item_id)] (model_dump item)
  = ("item_id"%string, VInt item_id) :: model_dump item.
Proof. reflexivity. Qed.

Lemma create_item_eq (item : Item) (items_db : gmap Z dict) :
  create_item item items_db
  = (Return (RetDict (("item_id"%string, VInt (len items_db + 1)) :: model_dump item)),
     <[len items_db + 1 := model_dump item]> items_db).
Proof. unfold create_item, getitem. by rewrite lookup_insert_eq. Qed.

(** C6: in snapshot 06, for every validated item [x] and every store,
    [create_item] raises nothing: it returns the identifier it assigned
    with the fields of [x]; the record stored under that identifier is the
    dump of [x], and [read_item] of that identifier returns it, the
    identifier in front, leaving the store as it is. *)
Theorem read_after_create (x : Item) (items_db : gmap Z dict) :
  exists item_id,
    (create_item x items_db).1
      = Return (RetDict (("item_id"%string, VInt item_id) :: model_dump x)) /\
    (create_item x items_db).2 !! item_id = Some (model_dump x) /\
    read_item item_id (create_item x items_db).2
      = (Return (RetDict (("item_id"%string, VInt item_id) :: model_dump x)),
         (create_item x items_db).2).
Proof.
  exists (len items_db + 1). unfold read_item.
  rewrite create_item_eq. cbn [fst snd].
  rewrite lookup_insert_eq. by rewrite item_info.
Qed.

End Store06.

(** ** Across the snapshots *)

(** C1, as the code has it.  In snapshot 06 a create whose record holds no
    float that JSON cannot write is answered 201, and the body is the
    assigned identifier, under the key [item_id], followed by the fields
    of the stored record.  In snapshot 12 every create is answered 201:
    the handler returns the assigned identifier with the record, the
    record is stored under that identifier and the counter moves on by
    one, but the route's response model [Item] keeps [name] and [price]
    only (a price that is not finite written as [null]): the body is the
    record without the identifier. *)
Theorem create_response :
  (forall (item : Snapshot06.Item) (items_db : gmap Z dict),
     json_compliant (Snapshot06.model_dump item) = true ->
     Snapshot06.POST_items item items_db
     = ({| status_code := 201;
           body := JSON (("item_id"%string, VInt (len items_db + 1))
                         :: Snapshot06.model_dump item) |},
        <[len items_db + 1 := Snapshot06.model_dump item]> items_db)) /\
  (forall (item : Snapshot12.Item) (s : Snapshot12.state),
     Snapshot12.assigned_id
       (Snapshot12.POST_items item, (Snapshot12.create_item item s).1)
     = Some (Snapshot12.item_next_id s) /\
     Snapshot12.serve (Snapshot12.POST_items item) s
     = ({| status_code := 201;
           body := JSON [("name"%string, VStr (Snapshot12.name item));
                         ("price"%string,
                          null_non_finite (VFloat (Snapshot12.price item)))] |},
        {| Snapshot12.items_db :=
             <[Snapshot12.item_next_id s := Snapshot12.model_dump item]>
               (Snapshot12.items_db s);
           Snapshot12.item_next_id := Snapshot12.item_next_id s + 1 |})).
Proof.
  split.
  - intros item items_db Hfin. unfold Snapshot06.POST_items.
    rewrite Store06.create_item_eq. cbn [route].
    change (json_compliant (("item_id"%string, VInt (len items_db + 1))
                            :: Snapshot06.model_dump item))
      with (json_compliant (Snapshot06.model_dump item)).
    by rewrite Hfin.
  - intros item s. split; reflexivity.
Qed.

(** The scenario of the specification in snapshot 06, through the
    theorem: the keyboard has no float that JSON cannot write. *)
Lemma create_response_witness :
  Snapshot06.POST_items Snapshot06.keyboard Snapshot06.initial
  = ({| status_code := 201;
        body := JSON (("item_id"%string, VInt (len Snapshot06.initial + 1))
                      :: Snapshot06.model_dump Snapshot06.keyboard) |},
     <[len Snapshot06.initial + 1 := Snapshot06.model_dump Snapshot06.keyboard]>
       Snapshot06.initial).
Proof.
  apply (proj1 create_response Snapshot06.keyboard Snapshot06.initial).
  reflexivity.
Defined.

(** The scenario of the specification in snapshot 06: Keyboard at 75.0 into
    the empty store. *)
Example create_keyboard_06 :
  (Snapshot06.POST_items Snapshot06.keyboard Snapshot06.initial).1
  = {| status_code := 201;
       body := JSON [("item_id"%string, VInt 1); ("name"%string, VStr "Keyboard");
                     ("description"%string, VNone);
                     ("price"%string, VFloat (binary64 75 0));
                     ("tax"%string, VNone); ("tags"%string, VStrs [])] |}.
Proof. reflexivity. Qed.

(** In snapshot 06 an infinite tax passes [gt=0]: the record is stored, and
    the encoder then refuses the infinite float. *)
Example create_infinite_tax_06 :
  Snapshot06.POST_items Snapshot06.keyboard_infinite_tax Snapshot06.initial
  = (internal_server_error,
     <[1 := Snapshot06.model_dump Snapshot06.keyboard_infinite_tax]> Snapshot06.initial).
Proof. reflexivity. Qed.

(** C1 as stated fails in snapshot 12: creating Keyboard at 75.0 in the
    initial store assigns identifier 3, and the body of the 201 response
    is the record alone, with no identifier in it. *)
Lemma snapshot12_create_body_lacks_id :
  Snapshot12.assigned_id
    (Snapshot12.POST_items Snapshot12.keyboard,
     (Snapshot12.create_item Snapshot12.keyboard Snapshot12.initial).1)
  = Some 3 /\
  (Snapshot12.serve (Snapshot12.POST_items Snapshot12.keyboard) Snapshot12.initial).1
  = {| status_code := 201;
       body := JSON [("name"%string, VStr "Keyboard");
                     ("price"%string, VFloat (binary64 75 0))] |} /\
  ("id"%string ∉ body_keys (body
     (Snapshot12.serve (Snapshot12.POST_items Snapshot12.keyboard) Snapshot12.initial).1)).
Proof.
  repeat split.
  apply (bool_decide_unpack _). by vm_compute.
Qed.

(** C4: [read_item] (snapshot 06), [update_item] and [delete_item]
    (snapshot 12) raise the 404 exception exactly when the id is not a key
    of the mapping, and then the state they leave (mapping and counter) is
    the state they were called in. *)
Theorem not_found_iff_absent_without_effect :
  (forall (item_id : Z) (items_db : gmap Z dict),
     (not_found (Snapshot06.read_item item_id items_db).1 <-> items_db !! item_id = None) /\
     (Snapshot06.read_item item_id items_db).2 = items_db) /\
  (forall (item_id : Z) (item : Snapshot12.Item) (s : Snapshot12.state),
     (not_found (Snapshot12.update_item item_id item s).1
      <-> Snapshot12.items_db s !! item_id = None) /\
     (Snapshot12.items_db s !! item_id = None ->
      (Snapshot12.update_item item_id item s).2 = s)) /\
  (forall (item_id : Z) (s : Snapshot12.state),
     (not_found (Snapshot12.delete_item item_id s).1
      <-> Snapshot12.items_db s !! item_id = None) /\
     (Snapshot12.items_db s !! item_id = None ->
      (Snapshot12.delete_item item_id s).2 = s)).
Proof.
  repeat split.
  - unfold Snapshot06.read_item.
    destruct (items_db !! item_id); simpl; [|done]. by intros [? ?].
  - unfold Snapshot06.read_item. intros ->. by eexists.
  - unfold Snapshot06.read_item. by destruct (items_db !! item_id).
  - unfold Snapshot12.update_item.
    destruct (Snapshot12.items_db s !! item_id); simpl; [|done].
    destruct (dict_eqb _ _); by intros [? ?].
  - unfold Snapshot12.update_item. intros ->. by eexists.
  - unfold Snapshot12.update_item. by intros ->.
  - unfold Snapshot12.delete_item.
    destruct (Snapshot12.items_db s !! item_id); simpl; [|done]. by intros [? ?].
  - unfold Snapshot12.delete_item. intros ->. by eexists.
  - unfold Snapshot12.delete_item. by intros ->.
Qed.

Lemma not_found_iff_absent_without_effect_witness :
  not_found (Snapshot06.read_item 1 Snapshot06.initial).1 /\
  (Snapshot12.update_item 7 Snapshot12.mouse Snapshot12.initial).2 = Snapshot12.initial /\
  (Snapshot12.delete_item 7 Snapshot12.initial).2 = Snapshot12.initial.
Proof.
  destruct not_found_iff_absent_without_effect as (Hread & Hupdate & Hdelete).
  split; [|split].
  - apply (proj1 (Hread 1 Snapshot06.initial)). reflexivity.
  - apply (proj2 (Hupdate 7 Snapshot12.mouse Snapshot12.initial)). reflexivity.
  - apply (proj2 (Hdelete 7 Snapshot12.initial)). reflexivity.
Defined.

(** ** Snapshot 12: frames, sessions, composition of requests *)

Module Sessions12.
Import Snapshot12.

Lemma reachable_keys_below (s : state) : reachable s -> keys_below s.
Proof. intros [rs ->]. apply Store12.keys_below_run, Store12.keys_below_initial. Qed.

Lemma reachable_all_dumps (s : state) : reachable s -> all_dumps s.
Proof. intros [rs ->]. apply Store12.all_dumps_run, Store12.all_dumps_initial. Qed.

(** X1: a request writes at most one key of [items_db]: the counter's for
    a create, the path parameter's for a delete or an update.  The record
    under every other key is as before, whatever the outcome. *)
Theorem request_touches_one_key (r : request) (s : state) (k : Z) :
  k <> touched_key r s ->
  items_db (handler r s).2 !! k = items_db s !! k.
Proof.
  destruct r as [item|item_id|item_id item]; simpl; intros Hk.
  - by rewrite lookup_insert_ne.
  - unfold delete_item. destruct (items_db s !! item_id); simpl; [|done].
    by rewrite lookup_delete_ne.
  - unfold update_item. destruct (items_db s !! item_id); simpl; [|done].
    destruct (dict_eqb _ _); simpl; [done|]. by rewrite lookup_insert_ne.
Qed.

Lemma request_touches_one_key_witness :
  items_db (handler (DELETE_items 1) initial).2 !! 2 = items_db initial !! 2.
Proof. apply (request_touches_one_key (DELETE_items 1) initial 2). discriminate. Defined.

(** An id that is absent and below the counter is answered 404 by every
    later delete and update. *)
Lemma absent_below_stays_not_found (rs : list request) (s : state) (i : Z) r o :
  keys_below s ->
  items_db s !! i = None ->
  i < item_next_id s ->
  (r, o) ∈ (run rs s).1 ->
  addresses i r ->
  not_found o.
Proof.
  revert s. induction rs as [|r' rs IH]; intros s Hs Hi Hlt.
  { simpl. by intros ?%elem_of_nil. }
  rewrite Store12.run_cons. cbn [fst]. intros [Hhd|Htl]%elem_of_cons Haddr.
  - injection Hhd as -> ->.
    destruct r' as [item|item_id|item_id item]; simpl in Haddr; [done| |]; subst item_id; simpl.
    + unfold delete_item. rewrite Hi. by eexists.
    + unfold update_item. rewrite Hi. by eexists.
  - eapply (IH (handler r' s).2); try done.
    + by apply Store12.keys_below_handler.
    + destruct (decide (i = touched_key r' s)) as [->|Hne].
      * destruct r' as [item|item_id|item_id item]; simpl in *; [lia| |].
        -- unfold delete_item. rewrite Hi. done.
        -- unfold update_item. rewrite Hi. done.
      * by rewrite request_touches_one_key.
    + rewrite Store12.next_id_handler.
      destruct (assigned_id _); lia.
Qed.

Lemma run_after_delete (rs : list request) (s : state) pre i post r o :
  keys_below s ->
  (run rs s).1 = pre ++ (DELETE_items i, Return RetNone) :: post ->
  (r, o) ∈ post ->
  addresses i r ->
  not_found o.
Proof.
  revert s pre. induction rs as [|r' rs IH]; intros s pre Hs.
  { simpl. by destruct pre. }
  rewrite Store12.run_cons. cbn [fst]. destruct pre as [|p pre]; simpl.
  - intros [= -> Ho <-]. simpl in Ho.
    assert (is_Some (items_db s !! i)) as Hi.
    { unfold delete_item in Ho. by destruct (items_db s !! i). }
    apply (absent_below_stays_not_found rs (delete_item i s).2 i).
    + by apply (Store12.keys_below_handler (DELETE_items i)).
    + unfold delete_item. destruct Hi as [d ->]. apply lookup_delete_eq.
    + unfold delete_item. destruct Hi as [d Hd]. rewrite Hd. simpl.
      apply Hs. by rewrite Hd.
  - intros [= _ Ht]. eapply IH; [|exact Ht]. by apply Store12.keys_below_handler.
Qed.

(** X2: once a delete of [i] has succeeded, every later delete and update
    of [i] in the session is answered with the 404 exception: the record
    does not come back, since no later create is given its identifier. *)
Theorem deleted_id_stays_not_found (rs : list request) pre i post r o :
  (run rs initial).1 = pre ++ (DELETE_items i, Return RetNone) :: post ->
  (r, o) ∈ post ->
  addresses i r ->
  not_found o.
Proof. apply run_after_delete, Store12.keys_below_initial. Qed.

Lemma deleted_id_stays_not_found_witness :
  not_found (update_item 1 laptop
               (run [DELETE_items 1; POST_items laptop] initial).2).1.
Proof.
  apply (deleted_id_stays_not_found
           [DELETE_items 1; POST_items laptop; PUT_items 1 laptop]
           [] 1
           [(POST_items laptop, (create_item laptop (delete_item 1 initial).2).1);
            (PUT_items 1 laptop,
             (update_item 1 laptop
                (run [DELETE_items 1; POST_items laptop] initial).2).1)]
           (PUT_items 1 laptop)).
  - reflexivity.
  - apply list_elem_of_In. right. left. reflexivity.
  - reflexivity.
Defined.

Lemma count_nonneg p t : 0 <= count p t.
Proof. unfold count. lia. Qed.

Lemma run_ids_consecutive (rs : list request) (s : state) :
  assigned_ids (run rs s).1 = seqZ (item_next_id s) (count is_create (run rs s).1) /\
  item_next_id (run rs s).2 = item_next_id s + count is_create (run rs s).1.
Proof.
  revert s. induction rs as [|r rs IH]; intros s.
  { simpl. split; [done|]. unfold count; simpl. lia. }
  rewrite Store12.run_cons. cbn [fst snd]. rewrite Store12.count_cons.
  destruct (IH (handler r s).2) as [Hids Hnext].
  pose proof (count_nonneg is_create (run rs (handler r s).2).1) as Hc.
  pose proof (Store12.next_id_handler r s) as Hstep.
  unfold assigned_ids in *. cbn [omap list_omap].
  rewrite Hnext, Hids, Hstep. clear Hnext Hids Hstep.
  destruct r as [item|item_id|item_id item].
  - change (assigned_id (POST_items item, (handler (POST_items item) s).1))
      with (Some (item_next_id s)).
    change (is_create (POST_items item, (handler (POST_items item) s).1)) with true.
    cbn match. split; [|lia].
    rewrite (seqZ_cons (item_next_id s)) by lia. repeat f_equal; lia.
  - change (assigned_id (DELETE_items item_id, (handler (DELETE_items item_id) s).1))
      with (@None Z).
    change (is_create (DELETE_items item_id, (handler (DELETE_items item_id) s).1))
      with false.
    cbn match. rewrite Z.add_0_r, Z.add_0_l. done.
  - change (assigned_id (PUT_items item_id item, (handler (PUT_items item_id item) s).1))
      with (@None Z).
    change (is_create (PUT_items item_id item, (handler (PUT_items item_id item) s).1))
      with false.
    cbn match. rewrite Z.add_0_r, Z.add_0_l. done.
Qed.

(** X3: in every session from the initial store the creates are given the
    consecutive identifiers 3, 4, 5, ...: a delete or an update in between
    leaves no gap and takes no identifier, and the counter ends at 3 plus
    the number of creates. *)
Theorem assigned_ids_consecutive (rs : list request) :
  assigned_ids (run rs initial).1 = seqZ 3 (count is_create (run rs initial).1) /\
  item_next_id (run rs initial).2 = 3 + count is_create (run rs initial).1.
Proof. apply (run_ids_consecutive rs initial). Qed.

(** X4: in a reachable store the key a create writes is free, so a create
    overwrites nothing: every record present before is present after,
    unchanged. *)
Theorem create_overwrites_nothing (s : state) (item : Item) :
  reachable s ->
  items_db s !! item_next_id s = None /\
  forall k d, items_db s !! k = Some d ->
              items_db (create_item item s).2 !! k = Some d.
Proof.
  intros [_ Hkeys]%reachable_keys_below.
  assert (items_db s !! item_next_id s = None) as Hfree.
  { destruct (items_db s !! item_next_id s) eqn:E; [|done].
    assert (is_Some (items_db s !! item_next_id s)) as Hk by (by rewrite E).
    specialize (Hkeys _ Hk). lia. }
  split; [done|]. intros k d Hk. simpl.
  rewrite lookup_insert_ne; [done|]. intros <-. by rewrite Hfree in Hk.
Qed.

Lemma create_overwrites_nothing_witness :
  items_db initial !! item_next_id initial = None /\
  forall k d, items_db initial !! k = Some d ->
              items_db (create_item mouse initial).2 !! k = Some d.
Proof. apply (create_overwrites_nothing initial mouse). by exists []. Defined.

(** X5: putting the same payload twice: whatever the first answer was, the
    second is 304 with no body and changes nothing (for a price that is
    not NaN). *)
Theorem update_twice_not_modified (s : state) (item_id : Z) (y : Item) :
  is_Some (items_db s !! item_id) ->
  ~ is_nan (price y) ->
  serve (PUT_items item_id y) (serve (PUT_items item_id y) s).2
  = ({| status_code := HTTP_304_NOT_MODIFIED; body := NoBody |},
     (serve (PUT_items item_id y) s).2).
Proof.
  intros [d Hd] Hnan. unfold serve, handler.
  assert (dict_eqb (model_dump y) (model_dump y) = true) as Hrefl.
  { rewrite Store12.dict_eqb_model_dump, String.eqb_refl, float_eqb_refl by done.
    by rewrite orb_true_r. }
  unfold update_item at 2 3. rewrite Hd.
  destruct (dict_eqb d (model_dump y)) eqn:E; cbn [fst snd].
  - unfold update_item. by rewrite Hd, E.
  - unfold update_item. cbn [items_db]. by rewrite lookup_insert_eq, Hrefl.
Qed.

Lemma update_twice_not_modified_witness :
  serve (PUT_items 2 mouse) (serve (PUT_items 2 mouse) initial).2
  = ({| status_code := HTTP_304_NOT_MODIFIED; body := NoBody |},
     (serve (PUT_items 2 mouse) initial).2).
Proof.
  apply (update_twice_not_modified initial 2 mouse).
  - by eexists.
  - intros [].
Defined.

(** X6: in a reachable store, deleting the record a create has just added
    is answered 204 with no body and gives back the mapping as it was
    before the create; only the counter remains advanced by one. *)
Theorem create_then_delete (s : state) (item : Item) :
  reachable s ->
  serve (DELETE_items (item_next_id s)) (serve (POST_items item) s).2
  = ({| status_code := HTTP_204_NO_CONTENT; body := NoBody |},
     {| items_db := items_db s; item_next_id := item_next_id s + 1 |}).
Proof.
  intros Hs. destruct (create_overwrites_nothing s item Hs) as [Hfree _].
  unfold serve, handler, create_item, delete_item. cbn [fst snd items_db item_next_id].
  rewrite lookup_insert_eq. cbn [route].
  by rewrite delete_insert_id.
Qed.

Lemma create_then_delete_witness :
  serve (DELETE_items (item_next_id initial)) (serve (POST_items mouse) initial).2
  = ({| status_code := HTTP_204_NO_CONTENT; body := NoBody |},
     {| items_db := items_db initial; item_next_id := item_next_id initial + 1 |}).
Proof. apply (create_then_delete initial mouse). by exists []. Defined.

(** X7: every record of a reachable store has the two keys [name] and
    [price] and no other: the identifier is the key of the mapping and is
    never written into the record. *)
Theorem stored_records_have_item_fields (s : state) (k : Z) (d : dict) :
  reachable s ->
  items_db s !! k = Some d ->
  dict_keys d = Item_fields /\ dict_get "id" d = None.
Proof.
  intros Hs%reachable_all_dumps Hk. by destruct (Hs k d Hk) as [x ->].
Qed.

Lemma stored_records_have_item_fields_witness :
  dict_keys (model_dump keyboard) = Item_fields /\
  dict_get "id" (model_dump keyboard) = None.
Proof.
  apply (stored_records_have_item_fields
           (run [POST_items keyboard] initial).2 3 (model_dump keyboard)).
  - by exists [POST_items keyboard].
  - reflexivity.
Defined.

End Sessions12.

(** ** Snapshot 06: sessions from the empty store *)

Module Sessions06.
Import Snapshot06.

Lemma serve_create (item : Item) (db : gmap Z dict) :
  (serve (ReqCreate item) db).2 = <[len db + 1 := model_dump item]> db.
Proof. cbn [serve]. unfold POST_items. by rewrite Store06.create_item_eq. Qed.

Lemma serve_read_state (item_id : Z) (db : gmap Z dict) :
  (serve (ReqRead item_id) db).2 = db.
Proof. simpl. unfold GET_item, read_item. by destruct (db !! item_id). Qed.

Lemma run06_cons (r : request) (rs : list request) (db : gmap Z dict) :
  run (r :: rs) db
  = ((serve r db).1 :: (run rs (serve r db).2).1, (run rs (serve r db).2).2).
Proof.
  cbn [run]. destruct (serve r db) as [resp db']. cbn [fst snd].
  by destruct (run rs db') as [t db''].
Qed.

Lemma run06_app (rs1 rs2 : list request) (db : gmap Z dict) :
  (run (rs1 ++ rs2) db).2 = (run rs2 (run rs1 db).2).2.
Proof.
  revert db. induction rs1 as [|r rs1 IH]; intros db; [done|].
  rewrite <- app_comm_cons, !run06_cons. cbn [snd]. apply IH.
Qed.

Lemma dense_free (db : gmap Z dict) : dense db -> db !! (len db + 1) = None.
Proof.
  intros Hd. destruct (db !! (len db + 1)) eqn:E; [|done].
  assert (is_Some (db !! (len db + 1))) as Hk by (by rewrite E).
  apply Hd in Hk. lia.
Qed.

Lemma len_insert_free (db : gmap Z dict) (d : dict) :
  dense db -> len (<[len db + 1 := d]> db) = len db + 1.
Proof.
  intros Hd. unfold len at 1. rewrite map_size_insert_None by by apply dense_free.
  unfold len. lia.
Qed.

Lemma dense_serve (r : request) (db : gmap Z dict) :
  dense db ->
  dense (serve r db).2 /\
  len (serve r db).2 = len db + creates [r] /\
  forall k d, db !! k = Some d -> (serve r db).2 !! k = Some d.
Proof.
  intros Hd. destruct r as [item|item_id].
  - rewrite serve_create. cbn [snd creates].
    pose proof (len_insert_free db (model_dump item) Hd) as Hlen.
    split; [|split; [lia|]].
    + intros k. rewrite Hlen.
      destruct (decide (k = len db + 1)) as [->|Hne].
      * rewrite lookup_insert_eq. unfold len. split; [lia|by eexists].
      * rewrite lookup_insert_ne by done. rewrite (Hd k). lia.
    + intros k d Hk. rewrite lookup_insert_ne; [done|].
      intros <-. by rewrite dense_free in Hk.
  - rewrite serve_read_state. cbn [creates]. split; [done|]. split; [lia|done].
Qed.

Lemma dense_run (rs : list request) (db : gmap Z dict) :
  dense db ->
  dense (run rs db).2 /\
  len (run rs db).2 = len db + creates rs /\
  forall k d, db !! k = Some d -> (run rs db).2 !! k = Some d.
Proof.
  revert db. induction rs as [|r rs IH]; intros db Hd.
  { simpl. split; [done|]. split; [lia|done]. }
  rewrite run06_cons. cbn [snd].
  destruct (dense_serve r db Hd) as (Hd' & Hlen' & Hkeep').
  destruct (IH _ Hd') as (Hd'' & Hlen'' & Hkeep'').
  split; [done|]. split.
  - rewrite Hlen'', Hlen'. destruct r; cbn [creates]; lia.
  - intros k d Hk. by apply Hkeep'', Hkeep'.
Qed.

Lemma dense_initial : dense initial.
Proof.
  intros k. unfold initial, len. rewrite lookup_empty, map_size_empty.
  split; [by intros [? ?]|simpl; lia].
Qed.

(** X8: from the empty store, the creates are given the identifiers 1, 2,
    3, ...: after a session with [n] creates (and any number of reads),
    the next [create_item] returns [item_id = n+1] with the fields of the
    item, and stores the item under that key. *)
Theorem create_ids_count_from_one (rs : list request) (item : Item) :
  create_item item (run rs initial).2
  = (Return (RetDict (("item_id"%string, VInt (creates rs + 1)) :: model_dump item)),
     <[creates rs + 1 := model_dump item]> (run rs initial).2).
Proof.
  destruct (dense_run rs initial dense_initial) as (_ & Hlen & _).
  rewrite Store06.create_item_eq, Hlen.
  replace (len initial) with 0; [done|].
  unfold initial, len. by rewrite map_size_empty.
Qed.

(** X9: after a session from the empty store with [n] creates, reading
    [item_id] raises the 404 exception exactly when [item_id] is outside
    [1 .. n] (zero and negative identifiers included). *)
Theorem read_not_found_iff_out_of_range (rs : list request) (item_id : Z) :
  not_found (read_item item_id (run rs initial).2).1
  <-> ~ (1 <= item_id <= creates rs).
Proof.
  destruct (dense_run rs initial dense_initial) as (Hd & Hlen & _).
  assert (len (run rs initial).2 = creates rs) as Hn.
  { rewrite Hlen. unfold initial, len at 1. by rewrite map_size_empty. }
  specialize (Hd item_id). rewrite Hn in Hd.
  unfold read_item. destruct ((run rs initial).2 !! item_id) eqn:E; simpl.
  - split; [by intros [? ?]|]. intros Hout. destruct Hout. apply Hd. by eexists.
  - split; [|by eexists]. intros _ Hin. apply Hd in Hin. by destruct Hin.
Qed.

(** X10: a record, once created in a session from the empty store, is
    never overwritten: after any further creates and reads, reading its
    identifier still returns the identifier with the fields it was created
    with. *)
Theorem created_item_stays_readable (rs1 rs2 : list request) (item : Item) :
  (read_item (creates rs1 + 1) (run (rs1 ++ ReqCreate item :: rs2) initial).2).1
  = Return (RetDict (("item_id"%string, VInt (creates rs1 + 1)) :: model_dump item)).
Proof.
  rewrite run06_app, run06_cons. cbn [snd]. rewrite serve_create. cbn [snd].
  destruct (dense_run rs1 initial dense_initial) as (Hd1 & Hlen1 & _).
  assert (len (run rs1 initial).2 = creates rs1) as Hn.
  { rewrite Hlen1. unfold initial, len at 1. by rewrite map_size_empty. }
  rewrite Hn.
  assert (dense (<[creates rs1 + 1 := model_dump item]> (run rs1 initial).2)) as Hd2.
  { pose proof (dense_serve (ReqCreate item) _ Hd1) as (H & _ & _).
    by rewrite serve_create, Hn in H. }
  destruct (dense_run rs2 _ Hd2) as (_ & _ & Hkeep).
  unfold read_item.
  rewrite (Hkeep (creates rs1 + 1) (model_dump item)) by apply lookup_insert_eq.
  reflexivity.
Qed.

End Sessions06.

(** ** Listing a mapping by ascending key *)

#[local] Instance key_le_trans {A} : Transitive (@key_le A).
Proof. intros x y z. unfold key_le. lia. Qed.

#[local] Instance key_le_total {A} : Total (@key_le A).
Proof. intros x y. unfold key_le. lia. Qed.

(** Two listings of the same entries, both by ascending key, are the same
    list when no key occurs twice. *)
Lemma key_sorted_unique {A} (l1 l2 : list (Z * A)) :
  NoDup l1.*1 -> l1 ≡ₚ l2 ->
  StronglySorted key_le l1 -> StronglySorted key_le l2 ->
  l1 = l2.
Proof.
  revert l2. induction l1 as [|x l1 IH]; intros l2 Hnd Hp Hs1 Hs2.
  { by apply Permutation_nil_l in Hp. }
  destruct l2 as [|y l2].
  { by apply Permutation_nil_r in Hp. }
  inversion Hs1 as [|? ? Hs1' Hx]; inversion Hs2 as [|? ? Hs2' Hy]; subst.
  rewrite fmap_cons in Hnd. apply NoDup_cons in Hnd as [Hx1 Hnd].
  assert (x = y) as ->.
  { assert (x ∈ y :: l2) as Hxin by (rewrite <- Hp; left).
    assert (y ∈ x :: l1) as Hyin by (rewrite Hp; left).
    apply elem_of_cons in Hxin as [->|Hxin]; [done|].
    apply elem_of_cons in Hyin as [->|Hyin]; [done|].
    rewrite Forall_forall in Hx, Hy.
    specialize (Hx y Hyin). specialize (Hy x Hxin). unfold key_le in Hx, Hy.
    destruct Hx1. replace x.1 with y.1 by lia.
    by apply list_elem_of_fmap_2. }
  f_equal. apply IH; try done. by eapply Permutation_cons_inv.
Qed.

Lemma values_fmap {A B} (f : A -> B) (m : gmap Z A) :
  values (f <$> m) = f <$> values m.
Proof.
  unfold values. rewrite map_to_list_fmap.
  rewrite (key_sorted_unique
             (merge_sort key_le (prod_map id f <$> map_to_list m))
             (prod_map id f <$> merge_sort key_le (map_to_list m))).
  - rewrite <- !list_fmap_compose. by apply list_fmap_ext; intros ? [k a] ?.
  - rewrite merge_sort_Permutation, <- list_fmap_compose.
    rewrite (list_fmap_ext _ fst (map_to_list m)) by (by intros ? [k a] ?).
    apply NoDup_fst_map_to_list.
  - by rewrite !merge_sort_Permutation.
  - apply StronglySorted_merge_sort; apply _.
  - apply (StronglySorted_fmap _ key_le).
    + by intros [k a] [k' a'].
    + apply StronglySorted_merge_sort; apply _.
Qed.

(** ** Snapshot 10: users, items, and what a response depends on *)

Module Sessions10.
Import Snapshot10.

Lemma run10_cons (r : request) (rs : list request) (s : state) :
  run (r :: rs) s
  = ((serve r s).1 :: (run rs (serve r s).2).1, (run rs (serve r s).2).2).
Proof.
  cbn [run]. destruct (serve r s) as [resp s']. cbn [fst snd].
  by destruct (run rs s') as [t s''].
Qed.

Lemma serve_state (r : request) (s : state) :
  (serve r s).2 = (handler r s).2.
Proof. unfold serve. by destruct (handler r s). Qed.

Lemma serve_users_db (r : request) (s : state) (u : string) :
  ~ creates_user u r ->
  fake_users_db (serve r s).2 !! u = fake_users_db s !! u.
Proof.
  rewrite serve_state. destruct r as [user|uname| |item_id]; simpl; intros Hu.
  - by rewrite lookup_insert_ne.
  - unfold read_user. by destruct (fake_users_db s !! uname).
  - done.
  - unfold read_single_item. by destruct (fake_items_db s !! item_id).
Qed.

Lemma run_users_db (rs : list request) (s : state) (u : string) :
  Forall (fun r => ~ creates_user u r) rs ->
  fake_users_db (run rs s).2 !! u = fake_users_db s !! u.
Proof.
  revert s. induction rs as [|r rs IH]; intros s Hrs; [done|].
  apply Forall_cons in Hrs as [Hr Hrs].
  rewrite run10_cons. cbn [snd]. by rewrite IH, serve_users_db.
Qed.

(** X11: a created user can be read back, and stays so: for a username
    that the router accepts as a path parameter (not empty, no slash),
    after [POST /users/] with [user] and any further requests that do not
    create a user of the same name, [GET /user/{username}] answers 200
    with the username, email and full name of [user]. *)
Theorem created_user_stays_readable (s : state) (user : UserIn) (rs : list request) :
  path_segment (username user) ->
  Forall (fun r => ~ creates_user (username user) r) rs ->
  (serve (GET_user (username user)) (run (POST_users user :: rs) s).2).1
  = {| status_code := HTTP_200_OK;
       body := JSON [("username"%string, VStr (username user));
                     ("email"%string, VStr (email user));
                     ("full_name"%string, from_option VStr VNone (full_name user))] |}.
Proof.
  intros _ Hrs. rewrite run10_cons. cbn [snd].
  unfold serve at 1. cbn [handler]. unfold read_user.
  rewrite (run_users_db rs _ _ Hrs), serve_state. cbn [handler create_user snd fake_users_db].
  rewrite lookup_insert_eq. by destruct user as [u p e [f|]].
Qed.

Lemma created_user_stays_readable_witness :
  (serve (GET_user "alice")
     (run [POST_users alice; GET_items; GET_user "bob"] initial).2).1
  = {| status_code := HTTP_200_OK;
       body := JSON [("username"%string, VStr "alice");
                     ("email"%string, VStr "alice@example.com");
                     ("full_name"%string, VNone)] |}.
Proof.
  apply (created_user_stays_readable initial alice [GET_items; GET_user "bob"]).
  - split; [discriminate|reflexivity].
  - repeat constructor; simpl; tauto.
Defined.

Lemma serve_items_db (r : request) (s : state) :
  fake_items_db (serve r s).2 = fake_items_db s.
Proof.
  rewrite serve_state. destruct r as [user|uname| |item_id]; simpl.
  - done.
  - unfold read_user. by destruct (fake_users_db s !! uname).
  - done.
  - unfold read_single_item. by destruct (fake_items_db s !! item_id).
Qed.

Lemma run_items_db (rs : list request) (s : state) :
  fake_items_db (run rs s).2 = fake_items_db s.
Proof.
  revert s. induction rs as [|r rs IH]; intros s; [done|].
  rewrite run10_cons. cbn [snd]. by rewrite IH, serve_items_db.
Qed.

(** X12: no route of snapshot 10 writes [fake_items_db]: after any
    session the mapping is the one the session started with, so the item
    routes answer as they did at the start. *)
Theorem items_are_read_only (rs : list request) (s : state) :
  fake_items_db (run rs s).2 = fake_items_db s /\
  (serve GET_items (run rs s).2).1 = (serve GET_items s).1 /\
  (forall item_id,
     (serve (GET_item item_id) (run rs s).2).1 = (serve (GET_item item_id) s).1).
Proof.
  pose proof (run_items_db rs s) as Hdb. split; [done|]. split.
  - unfold serve; simpl. by rewrite Hdb.
  - intros item_id. unfold serve; simpl. unfold read_single_item. rewrite Hdb.
    by destruct (fake_items_db s !! item_id).
Qed.

Lemma response_of_scrubbed (r : request) (s : state) :
  (serve r s).1 = (serve (scrub_request r) (scrub s)).1.
Proof.
  destruct r as [user|uname| |item_id]; unfold serve; simpl.
  - reflexivity.
  - unfold read_user. cbn [scrub fake_users_db]. rewrite lookup_fmap.
    by destruct (fake_users_db s !! uname).
  - by rewrite values_fmap, <- !list_fmap_compose.
  - unfold read_single_item. cbn [scrub fake_items_db]. rewrite lookup_fmap.
    by destruct (fake_items_db s !! item_id).
Qed.

(** X13: no response depends on an internal-only field.  Two requests that
    agree once passwords are blanked, served in two states that agree once
    passwords, owner ids and secret codes are blanked, get the same
    response (status and body). *)
Theorem responses_independent_of_internal_fields (r1 r2 : request) (s1 s2 : state) :
  scrub_request r1 = scrub_request r2 ->
  scrub s1 = scrub s2 ->
  (serve r1 s1).1 = (serve r2 s2).1.
Proof.
  intros Hr Hs. by rewrite (response_of_scrubbed r1), (response_of_scrubbed r2), Hr, Hs.
Qed.

Lemma responses_independent_of_internal_fields_witness :
  (serve (GET_user "alice") (serve (POST_users alice) initial).2).1
  = (serve (GET_user "alice")
       (serve (POST_users {| username := "alice"; password := "swordfish";
                             email := "alice@example.com"; full_name := None |})
              initial).2).1.
Proof.
  apply (responses_independent_of_internal_fields (GET_user "alice") (GET_user "alice")).
  - reflexivity.
  - reflexivity.
Defined.

End Sessions10.

(** ** Snapshot 04: pages of the item list *)

Module Pages04.
Import Snapshot04.

Lemma page_of_response (db : list obj) (skip limit : Z) :
  page_of (read_items_with_query db skip limit)
  = JObj <$> slice db skip (skip + limit).
Proof. reflexivity. Qed.

Lemma slice_nonneg {A} (l : list A) (skip limit : Z) :
  0 <= skip -> 0 <= limit ->
  slice l skip (skip + limit) = take (Z.to_nat limit) (drop (Z.to_nat skip) l).
Proof.
  intros Hs Hl. unfold slice, adjust_index.
  destruct (Z.ltb_spec skip 0); [lia|].
  destruct (Z.ltb_spec (skip + limit) 0); [lia|].
  destruct (Z_le_gt_dec (Z.of_nat (length l)) skip) as [Hout|Hin].
  - rewrite !Z.min_r by lia. rewrite Z.sub_diag. simpl.
    rewrite (drop_ge l (Z.to_nat skip)) by lia. by rewrite take_nil.
  - rewrite (Z.min_l skip) by lia.
    destruct (Z_le_gt_dec (skip + limit) (Z.of_nat (length l))) as [Hfit|Hcut].
    + rewrite Z.min_l by lia. f_equal. lia.
    + rewrite Z.min_r by lia.
      rewrite !take_ge; [done| |]; rewrite length_drop; lia.
Qed.

(** X14: for [skip >= 0] and [limit >= 0] the page is the [limit] items
    that follow the first [skip] ones: at most [limit] items, fewer at the
    end of the list, none once [skip] reaches its length; no bound raises
    an error. *)
Theorem page_is_take_drop (db : list obj) (skip limit : Z) :
  0 <= skip -> 0 <= limit ->
  page_of (read_items_with_query db skip limit)
  = JObj <$> take (Z.to_nat limit) (drop (Z.to_nat skip) db) /\
  Z.of_nat (length (page_of (read_items_with_query db skip limit))) <= limit /\
  (Z.of_nat (length db) <= skip ->
   page_of (read_items_with_query db skip limit) = []).
Proof.
  intros Hs Hl. rewrite page_of_response, slice_nonneg by done.
  split; [done|]. split.
  - rewrite length_fmap, length_take. lia.
  - intros Hout. by rewrite drop_ge, take_nil by lia.
Qed.

Lemma page_is_take_drop_witness :
  page_of (read_items_with_query fake_items_db 1 5)
  = JObj <$> take 5 (drop 1 fake_items_db).
Proof.
  apply (proj1 (page_is_take_drop fake_items_db 1 5 ltac:(lia) ltac:(lia))).
Defined.

(** X15: for all integers [skip] and [limit], negative ones included, the
    page is a run of consecutive items of the list, in the order of the
    list; and whenever [limit >= 0] it holds at most [limit] items, also
    for a negative [skip] (which counts from the end of the list). *)
Theorem page_is_a_segment (db : list obj) (skip limit : Z) :
  exists before page after,
    db = before ++ page ++ after /\
    page_of (read_items_with_query db skip limit) = JObj <$> page /\
    (0 <= limit -> Z.of_nat (length page) <= limit).
Proof.
  rewrite page_of_response. unfold slice.
  set (n := Z.of_nat (length db)).
  set (a := adjust_index skip n). set (b := adjust_index (skip + limit) n).
  exists (take (Z.to_nat a) db),
         (take (Z.to_nat (b - a)) (drop (Z.to_nat a) db)),
         (drop (Z.to_nat (b - a)) (drop (Z.to_nat a) db)).
  split; [by rewrite !take_drop|]. split; [done|].
  intros Hl. rewrite length_take.
  assert (0 <= n) by (unfold n; lia).
  assert (b - a <= limit); [|lia].
  unfold a, b, adjust_index.
  destruct (Z.ltb_spec skip 0), (Z.ltb_spec (skip + limit) 0); lia.
Qed.

Lemma page_is_a_segment_witness :
  exists before page after,
    fake_items_db = before ++ page ++ after /\
    page_of (read_items_with_query fake_items_db (-1) 10) = JObj <$> page /\
    (0 <= 10 -> Z.of_nat (length page) <= 10).
Proof. apply (page_is_a_segment fake_items_db (-1) 10). Defined.

(** A negative [limit] does not mean an empty page: with [skip = 0] and
    [limit = -1] the slice is [db[0:-1]], all items but the last. *)
Example page_with_negative_limit :
  page_of (read_items_with_query fake_items_db 0 (-1))
  = JObj <$> take 2 fake_items_db.
Proof. reflexivity. Qed.

(** X16: consecutive pages join up: for non-negative bounds, the page of
    [a] items at [skip] followed by the page of [b] items at [skip + a] is
    the page of [a + b] items at [skip]; no item is lost or repeated
    between pages. *)
Theorem consecutive_pages_join (db : list obj) (skip a b : Z) :
  0 <= skip -> 0 <= a -> 0 <= b ->
  page_of (read_items_with_query db skip a)
    ++ page_of (read_items_with_query db (skip + a) b)
  = page_of (read_items_with_query db skip (a + b)).
Proof.
  intros Hs Ha Hb. rewrite !page_of_response, !slice_nonneg by lia.
  rewrite <- fmap_app. f_equal.
  rewrite Z2Nat.inj_add, <- drop_drop by lia.
  rewrite take_take_drop. f_equal. lia.
Qed.

Lemma consecutive_pages_join_witness :
  page_of (read_items_with_query fake_items_db 0 1)
    ++ page_of (read_items_with_query fake_items_db (0 + 1) 2)
  = page_of (read_items_with_query fake_items_db 0 (1 + 2)).
Proof.
  apply (consecutive_pages_join fake_items_db 0 1 2); lia.
Defined.

End Pages04.

(** ** Snapshot 05: the price with tax *)

Module Bodies05.
Import Snapshot05.

Lemma SFeqb_zero (f : float) : SFeqb f (S754_zero false) = true <-> is_zero f.
Proof.
  unfold SFeqb. destruct f as [s|s| |s m e]; simpl; try done.
  - by destruct s.
  - by destruct s.
Qed.

(** X17: [create_item] returns the fields of the item as they are, and
    appends [price_with_tax = price + tax] exactly when a tax is given and
    is not zero: without a tax, or with a tax of [0.0] or [-0.0], the key
    is absent. *)
Theorem price_with_tax_iff_tax_nonzero (item : Item) :
  (tax item = None -> create_item item = model_dump item) /\
  (forall t, tax item = Some t -> is_zero t -> create_item item = model_dump item) /\
  (forall t, tax item = Some t -> ~ is_zero t ->
     create_item item
     = model_dump item
       ++ [("price_with_tax"%string, JFloat (float_add (price item) t))]).
Proof.
  unfold create_item, truthy_float. repeat split.
  - by intros ->.
  - intros t -> Hz. apply SFeqb_zero in Hz. by rewrite Hz.
  - intros t -> Hz.
    destruct (SFeqb t (S754_zero false)) eqn:E; [|reflexivity].
    by apply SFeqb_zero in E.
Qed.

Lemma price_with_tax_iff_tax_nonzero_witness :
  create_item {| name := "Pen"; description := None;
                 price := binary64 75 0; tax := Some (S754_zero true) |}
  = model_dump {| name := "Pen"; description := None;
                  price := binary64 75 0; tax := Some (S754_zero true) |} /\
  obj_get "price_with_tax"
    (create_item {| name := "Pen"; description := None;
                    price := binary64 75 0; tax := Some (binary64 51 (-1)) |})
  = Some (JFloat (binary64 201 (-1))).
Proof.
  split.
  - apply (proj1 (proj2 (price_with_tax_iff_tax_nonzero
                           {| name := "Pen"; description := None;
                              price := binary64 75 0; tax := Some (S754_zero true) |}))
             (S754_zero true)); [reflexivity | exact I].
  - rewrite (proj2 (proj2 (price_with_tax_iff_tax_nonzero
                           {| name := "Pen"; description := None;
                              price := binary64 75 0; tax := Some (binary64 51 (-1)) |}))
             (binary64 51 (-1))); [reflexivity | reflexivity | intros []].
Defined.

(** X18: [update_item_complex] answers with the path's [item_id] followed
    by the fields of the body, and appends [query_param_q] exactly when
    [q] is a non-empty string: a missing [q] and an empty one ([?q=]) give
    the same answer. *)
Theorem query_param_q_iff_nonempty (item_id : Z) (item : Item) (q : option string) :
  (q = None \/ q = Some EmptyString ->
   update_item_complex item_id item q
   = ("item_id"%string, JInt item_id) :: model_dump item) /\
  (forall s, q = Some s -> s <> EmptyString ->
     update_item_complex item_id item q
     = ("item_id"%string, JInt item_id) :: model_dump item
       ++ [("query_param_q"%string, JStr s)]).
Proof.
  unfold update_item_complex, truthy_str. split.
  - by intros [->| ->].
  - intros s -> Hs. destruct (String.eqb_spec s EmptyString); [done|reflexivity].
Qed.

Lemma query_param_q_iff_nonempty_witness :
  update_item_complex 3 {| name := "Pen"; description := None;
                           price := binary64 75 0; tax := None |} (Some EmptyString)
  = update_item_complex 3 {| name := "Pen"; description := None;
                             price := binary64 75 0; tax := None |} None.
Proof.
  rewrite (proj1 (query_param_q_iff_nonempty 3
                    {| name := "Pen"; description := None;
                       price := binary64 75 0; tax := None |} (Some EmptyString)))
    by (by right).
  rewrite (proj1 (query_param_q_iff_nonempty 3
                    {| name := "Pen"; description := None;
                       price := binary64 75 0; tax := None |} None))
    by (by left).
  reflexivity.
Defined.

End Bodies05.

(** ** Snapshot 07: who passes the API key check *)

Module Access07.
Import Snapshot07.

(** X19: the two protected routes answer 200 exactly for the key
    ["fakeapikey"] (compared as it is, case included).  For any other key,
    and for none, both answer 403 with the detail ["Invalid API Key"] and
    nothing else: the handler is not run.  The admin route admits exactly
    the requests the key check admits. *)
Theorem protected_routes_need_the_key (x_api_key : option string) :
  (x_api_key = Some "fakeapikey"%string ->
   GET_secure_data x_api_key
   = (HTTP_200_OK, [("message"%string, JStr "This is secure data!");
                    ("requester_api_key"%string, JStr "fakeapikey")]) /\
   GET_admin_only x_api_key
   = (HTTP_200_OK, [("message"%string, JStr "Welcome, Admin");
                    ("access_level"%string, JObj [("is_admin"%string, JBool true)])])) /\
  (x_api_key <> Some "fakeapikey"%string ->
   GET_secure_data x_api_key
   = (HTTP_403_FORBIDDEN, [("detail"%string, JStr "Invalid API Key")]) /\
   GET_admin_only x_api_key
   = (HTTP_403_FORBIDDEN, [("detail"%string, JStr "Invalid API Key")])).
Proof.
  split.
  - by intros ->.
  - intros Hne. unfold GET_secure_data, GET_admin_only, verify_api_key.
    destruct x_api_key as [key|]; [|done].
    destruct (String.eqb_spec key "fakeapikey") as [->|]; [done|done].
Qed.

Lemma protected_routes_need_the_key_witness :
  GET_admin_only (Some "FakeApiKey"%string)
  = (HTTP_403_FORBIDDEN, [("detail"%string, JStr "Invalid API Key")]).
Proof.
  apply (proj2 (protected_routes_need_the_key (Some "FakeApiKey"%string))).
  discriminate.
Defined.

End Access07.
